(** * Rule extraction and validation pipeline of [genaidataprofiling.py]

    A shallow embedding of the three functions of the script that carry
    logic: [clean_json_response], [extract_profile_rules] and
    [validate_data], followed by the properties stated about them.

    Conventions of the model.
    - A Python [str] is the [string] of the bytes of its UTF-8 encoding.
      The two regular expressions of [clean_json_response] are two ASCII
      literals around one lazy group, and are run the way the [re]
      module runs them: position by position from the left, the group
      growing one step at a time; a literal never matches inside a
      longer character, so the steps can be bytes.
    - Values produced by [json.loads] are the inductive [pyval]; a number
      is a [pyfloat]: a rational, a NaN or an infinity.  Where Python or
      pandas take a number as a float, it is [binary64] of it: the
      comparison of a column with a float, [float] of an integer, the
      truth value of a float.
    - Functions of CPython, pandas and requests that the script calls and
      whose code is not part of the repository are Variables of the
      Sections below: [json_loads], [py_repr], [str_to_float], [isin],
      [requests_post], [getenv].
    - An uncaught Python exception is the [Raise] outcome of the monad
      [result]; [print] calls are left out.
    - Reading the two input files and writing the workbook are taken to
      succeed: [validate_data] starts from the frame read and ends with
      the workbook written; what the readers or the writer refuse is
      not part of the model. *)

From Stdlib Require Import List String Ascii Bool Arith ZArith QArith Qabs Lia.
From Stdlib Require Import DecimalString.
Import ListNotations.

Local Close Scope Q_scope.
Local Open Scope list_scope.
Local Open Scope string_scope.

(* ================================================================== *)
(** * Strings: searching for a literal *)
(* ================================================================== *)

Module Str.

(** [strip_prefix p s] is [Some r] when [s = p ++ r]. *)
Fixpoint strip_prefix (p s : string) : option string :=
  match p, s with
  | EmptyString, _ => Some s
  | String a p', String b s' =>
      if Ascii.eqb a b then strip_prefix p' s' else None
  | String _ _, EmptyString => None
  end.

(** [split_first pat s] cuts [s] around the leftmost occurrence of [pat]:
    the text before it and the text after it. *)
Fixpoint split_first (pat s : string) : option (string * string) :=
  match strip_prefix pat s with
  | Some rest => Some (EmptyString, rest)
  | None =>
      match s with
      | EmptyString => None
      | String c s' =>
          match split_first pat s' with
          | Some (before, after) => Some (String c before, after)
          | None => None
          end
      end
  end.

(** [pat] occurs in [s] right after the prefix [before]. *)
Definition occurs_at (pat s before : string) : Prop :=
  exists after, s = before ++ pat ++ after.

(** ... and no occurrence of [pat] in [s] starts further left. *)
Definition first_at (pat s before : string) : Prop :=
  occurs_at pat s before /\
  forall before', occurs_at pat s before' -> (length before <= length before')%nat.

(** Python's [sub in s] on two strings. *)
Definition contains (pat s : string) : bool :=
  match split_first pat s with Some _ => true | None => false end.

(** The characters [str.strip] removes are those [str.isspace] accepts.
    In the ASCII range: TAB, LF, VT, FF, CR, FS, GS, RS, US and the
    space. *)
Definition isspace (c : ascii) : bool :=
  let n := nat_of_ascii c in
  ((9 <=? n)%nat && (n <=? 13)%nat) || ((28 <=? n)%nat && (n <=? 32)%nat).

(** On two bytes: U+0085 and U+00A0, that is C2 85 and C2 A0. *)
Definition isspace2 (a b : ascii) : bool :=
  let '(x, y) := (nat_of_ascii a, nat_of_ascii b) in
  (x =? 194)%nat && ((y =? 133)%nat || (y =? 160)%nat).

(** On three bytes: U+1680 (E1 9A 80), U+2000 to U+200A (E2 80 80 to
    E2 80 8A), U+2028, U+2029 and U+202F (E2 80 A8, A9 and AF), U+205F
    (E2 81 9F) and U+3000 (E3 80 80). *)
Definition isspace3 (a b c : ascii) : bool :=
  let '(x, y, z) := (nat_of_ascii a, nat_of_ascii b, nat_of_ascii c) in
  ((x =? 225)%nat && (y =? 154)%nat && (z =? 128)%nat)
  || ((x =? 226)%nat && (y =? 128)%nat
      && (((128 <=? z)%nat && (z <=? 138)%nat)
          || (z =? 168)%nat || (z =? 169)%nat || (z =? 175)%nat))
  || ((x =? 226)%nat && (y =? 129)%nat && (z =? 159)%nat)
  || ((x =? 227)%nat && (y =? 128)%nat && (z =? 128)%nat).

(** [s.lstrip()]. *)
Fixpoint lstrip (s : string) : string :=
  match s with
  | String a s1 =>
      if isspace a then lstrip s1
      else
        match s1 with
        | String b s2 =>
            if isspace2 a b then lstrip s2
            else
              match s2 with
              | String c s3 => if isspace3 a b c then lstrip s3 else s
              | EmptyString => s
              end
        | EmptyString => s
        end
  | EmptyString => EmptyString
  end.

(** A byte of the form 10xxxxxx, which continues a character. *)
Definition is_continuation (c : ascii) : bool :=
  let n := nat_of_ascii c in
  (128 <=? n)%nat && (n <=? 191)%nat.

Definition startswith (p s : string) : bool :=
  match strip_prefix p s with Some _ => true | None => false end.

End Str.

(* ================================================================== *)
(** * ResponseSanitizer: [clean_json_response] *)
(* ================================================================== *)

Definition LF : string := String "010"%char EmptyString.

(** The literals around the group of [r'```json\n(.*?)\n```']. *)
Definition fence_open : string := "```json" ++ LF.
Definition fence_close : string := LF ++ "```".

(** The literals around the group of [r'\\boxed{(.*?)}']: a backslash,
    the word boxed and an opening brace; a closing brace. *)
Definition boxed_open : string := "\boxed{".
Definition boxed_close : string := "}".

(** The lazy group [(.*?)] followed by the literal [closing], matched at
    the start of [s]: the group grows one character at a time until
    [closing] matches right after it; with [re.DOTALL] it grows over any
    character. *)
Fixpoint lazy_group (closing s : string) : option string :=
  match Str.strip_prefix closing s with
  | Some _ => Some EmptyString
  | None =>
      match s with
      | EmptyString => None
      | String c s' =>
          match lazy_group closing s' with
          | Some group => Some (String c group)
          | None => None
          end
      end
  end.

(** The pattern [opening (.*?) closing] matched at the start of [s]. *)
Definition match_here (opening closing s : string) : option string :=
  match Str.strip_prefix opening s with
  | Some rest => lazy_group closing rest
  | None => None
  end.

(** [re.search(opening + '(.*?)' + closing, s, re.DOTALL)] and then
    [group(1)], for literal [opening] and [closing]: the pattern is tried
    at each position of [s] from the left, and the first position where
    it matches gives the group. *)
Fixpoint re_search_group (opening closing s : string) : option string :=
  match match_here opening closing s with
  | Some group => Some group
  | None =>
      match s with
      | EmptyString => None
      | String _ s' => re_search_group opening closing s'
      end
  end.

Definition clean_json_response (response_text : string) : string :=
  match re_search_group fence_open fence_close response_text with
  | Some group => group
  | None =>
      match re_search_group boxed_open boxed_close response_text with
      | Some group => group
      | None => response_text
      end
  end.

(* ================================================================== *)
(** * Python values, exceptions and the operations the script uses *)
(* ================================================================== *)

(** A number of pandas or a Python [float]: NaN, an infinity, or the
    finite number [q].  An [int64] value is [FNum] of that integer.  A
    [float] is [FNum q] for the binary64 value nearest to [q], which is
    how Python reads the decimal [q]: see [binary64] below. *)
Inductive pyfloat : Type :=
| FNum (q : Q)
| FNan
| FInf (negative : bool).

(** What [json.loads] builds.  A [PDict] keeps its entries in insertion
    order and has no two entries with the same key. *)
#[warnings="-register-all"]
Inductive pyval : Type :=
| PNone
| PBool (b : bool)
| PInt (z : Z)
| PFloat (f : pyfloat)
| PStr (s : string)
| PList (items : list pyval)
| PDict (entries : list (string * pyval)).

(** The exceptions that can leave the functions of the script. *)
Inductive exn : Type :=
| AttributeError
| TypeError
| ValueError
| KeyError
| IndexError
| OverflowError.

(** A computation that returns a value or raises. *)
Inductive result (A : Type) : Type :=
| Ok (a : A)
| Raise (e : exn).

Arguments Ok {A} a.
Arguments Raise {A} e.

Definition bind {A B : Type} (c : result A) (k : A -> result B) : result B :=
  match c with
  | Ok a => k a
  | Raise e => Raise e
  end.

Notation "x <- c ;; k" := (bind c (fun x => k))
  (at level 61, c at next level, right associativity).

(** The integer nearest to [n / d], the even one when two are as near. *)
Definition round_half_even (n : Z) (d : positive) : Z :=
  let q := (n / Z.pos d)%Z in
  let r := (n mod Z.pos d)%Z in
  match (2 * r ?= Z.pos d)%Z with
  | Lt => q
  | Gt => (q + 1)%Z
  | Eq => if Z.even q then q else (q + 1)%Z
  end.

(** [q * 2^k]. *)
Definition scale2 (q : Q) (k : Z) : Q :=
  match k with
  | Z0 => q
  | Zpos p => (Qnum q * 2 ^ Zpos p)%Z # Qden q
  | Zneg p => Qnum q # (Qden q * 2 ^ p)%positive
  end.

(** The [e] with [2^e <= |q| < 2^(e+1)], for [q] other than 0. *)
Definition exponent2 (q : Q) : Z :=
  let e := (Z.log2 (Z.abs (Qnum q)) - Z.log2 (Z.pos (Qden q)))%Z in
  if Qle_bool 1 (Qabs (scale2 q (- e))) then e else (e - 1)%Z.

(** The binary64 value of a number: the nearest number of the form
    [m * 2^(e - 52)] with [|m| <= 2^53], where [e] is the exponent of the
    number and at least -1022, the even [m] when two are as near, and an
    infinity from [2^1024] on.  A binary64 value is its own binary64
    value. *)
Definition binary64 (f : pyfloat) : pyfloat :=
  match f with
  | FNum q =>
      if Z.eqb (Qnum q) 0 then FNum 0
      else
        let e := Z.max (exponent2 q) (-1022) in
        let scaled := scale2 q (52 - e) in
        let m := round_half_even (Qnum scaled) (Qden scaled) in
        let v := Qred (scale2 (inject_Z m) (e - 52)) in
        if Qle_bool (inject_Z (2 ^ 1024)) (Qabs v)
        then FInf (Z.ltb m 0)
        else FNum v
  | FNan => FNan
  | FInf negative => FInf negative
  end.

(** Comparison [a <= b] of two numbers as binary64 values: false as soon
    as one is NaN. *)
Definition fle (a b : pyfloat) : bool :=
  match binary64 a, binary64 b with
  | FNan, _ => false
  | _, FNan => false
  | FInf true, _ => true
  | FInf false, FInf false => true
  | FInf false, _ => false
  | FNum _, FInf negative => negb negative
  | FNum x, FNum y => Qle_bool x y
  end.

Definition float_of_bool (b : bool) : pyfloat :=
  FNum (if b then 1%Q else 0%Q).

(** Truth value of an object, as [not x] and [if x] test it. *)
Definition truthy (v : pyval) : bool :=
  match v with
  | PNone => false
  | PBool b => b
  | PInt z => negb (Z.eqb z 0)
  | PFloat f =>
      match binary64 f with
      | FNum q => negb (Qeq_bool q 0)
      | _ => true
      end
  | PStr s => negb (String.eqb s EmptyString)
  | PList items => match items with [] => false | _ => true end
  | PDict entries => match entries with [] => false | _ => true end
  end.

Fixpoint lookup (k : string) (entries : list (string * pyval)) : option pyval :=
  match entries with
  | [] => None
  | (k', v) :: rest => if String.eqb k k' then Some v else lookup k rest
  end.

(** [obj.get(key, default)]: only a dict has the method. *)
Definition py_get (obj : pyval) (key : string) (default : pyval) : result pyval :=
  match obj with
  | PDict entries =>
      Ok (match lookup key entries with Some v => v | None => default end)
  | _ => Raise AttributeError
  end.

(** The characters of a string, each with the bytes that continue it. *)
Fixpoint split_chars (s : string) : list string :=
  match s with
  | EmptyString => []
  | String c s' =>
      let tail := split_chars s' in
      match s' with
      | String c' _ =>
          if Str.is_continuation c'
          then match tail with
               | next :: rest => String c next :: rest
               | [] => [String c EmptyString]
               end
          else String c EmptyString :: tail
      | EmptyString => String c EmptyString :: tail
      end
  end.

Definition chars (s : string) : list pyval := map PStr (split_chars s).

(** The items a [for] loop over [v] visits: the elements of a list, the
    keys of a dict, the characters of a string; other values are not
    iterable. *)
Definition py_iter (v : pyval) : result (list pyval) :=
  match v with
  | PList items => Ok items
  | PDict entries => Ok (map (fun kv => PStr (fst kv)) entries)
  | PStr s => Ok (chars s)
  | _ => Raise TypeError
  end.

(** [v == s] for a string literal [s]. *)
Definition py_eq_str (v : pyval) (s : string) : bool :=
  match v with
  | PStr t => String.eqb t s
  | _ => false
  end.

(** [isinstance(v, list)]. *)
Definition is_list (v : pyval) : bool :=
  match v with
  | PList _ => true
  | _ => false
  end.

(** [key in obj] for a string [key]. *)
Definition py_in (key : string) (obj : pyval) : result bool :=
  match obj with
  | PDict entries =>
      Ok (match lookup key entries with Some _ => true | None => false end)
  | PList items => Ok (existsb (fun x => py_eq_str x key) items)
  | PStr s => Ok (Str.contains key s)
  | _ => Raise TypeError
  end.

(** [obj[0]]. *)
Definition py_getitem0 (obj : pyval) : result pyval :=
  match obj with
  | PList (x :: _) => Ok x
  | PList [] => Raise IndexError
  | PStr s =>
      match chars s with
      | first :: _ => Ok first
      | [] => Raise IndexError
      end
  | PDict _ => Raise KeyError
  | _ => Raise TypeError
  end.

(** [obj[key]] for a string [key]. *)
Definition py_getitem (obj : pyval) (key : string) : result pyval :=
  match obj with
  | PDict entries =>
      match lookup key entries with
      | Some v => Ok v
      | None => Raise KeyError
      end
  | _ => Raise TypeError
  end.

Definition string_of_Z (z : Z) : string :=
  NilZero.string_of_int (Z.to_int z).

(** [f"{x}"] where [x] is [None] or a string. *)
Definition format_opt (x : option string) : string :=
  match x with
  | Some s => s
  | None => "None"
  end.

(* ================================================================== *)
(** * The pandas frame *)
(* ================================================================== *)

(** A column as [pd.read_csv] types it: numbers ([int64] or [float64],
    a missing value being NaN), booleans, or objects (a string, or
    [None] for a missing value). *)
Inductive column : Type :=
| NumCol (vals : list pyfloat)
| BoolCol (vals : list bool)
| ObjCol (vals : list (option string)).

(** One value of a column, with the type of its column. *)
Inductive cell : Type :=
| CNum (f : pyfloat)
| CBool (b : bool)
| CStr (s : string)
| CNull.

Record DataFrame : Type := {
  nrows : nat;
  columns : list (string * column)
}.

Definition names (df : DataFrame) : list string := map fst (columns df).

Definition cells (c : column) : list cell :=
  match c with
  | NumCol vals => map CNum vals
  | BoolCol vals => map CBool vals
  | ObjCol vals =>
      map (fun v => match v with Some s => CStr s | None => CNull end) vals
  end.

Definition col_length (c : column) : nat := List.length (cells c).

Fixpoint find_col (name : string) (cols : list (string * column)) : option column :=
  match cols with
  | [] => None
  | (n, c) :: rest => if String.eqb name n then Some c else find_col name rest
  end.

(** [df[name]]. *)
Definition getitem (df : DataFrame) (name : string) : option column :=
  find_col name (columns df).

(** The columns after [df[name] = c]: an existing column is replaced
    where it stands, a new one is added last. *)
Fixpoint set_col (name : string) (c : column) (cols : list (string * column))
  : list (string * column) :=
  match cols with
  | [] => [(name, c)]
  | (n, c') :: rest =>
      if String.eqb name n then (n, c) :: rest
      else (n, c') :: set_col name c rest
  end.

Definition setitem (df : DataFrame) (name : string) (c : column) : DataFrame :=
  {| nrows := nrows df; columns := set_col name c (columns df) |}.

(** [pd.api.types.is_numeric_dtype(col)]. *)
Definition is_numeric_dtype (c : column) : bool :=
  match c with
  | NumCol _ | BoolCol _ => true
  | ObjCol _ => false
  end.

(** [col.isnull()]. *)
Definition isnull (c : column) : list bool :=
  match c with
  | NumCol vals =>
      map (fun f => match f with FNan => true | _ => false end) vals
  | BoolCol vals => map (fun _ => false) vals
  | ObjCol vals =>
      map (fun v => match v with None => true | Some _ => false end) vals
  end.

(** [col <= bound] for a float [bound]: the values of an [int64] or
    [float64] column and the booleans are compared as binary64 values;
    strings do not compare with a float. *)
Definition le_float (c : column) (bound : pyfloat) : result (list bool) :=
  match c with
  | NumCol vals => Ok (map (fun f => fle f bound) vals)
  | BoolCol vals => Ok (map (fun b => fle (float_of_bool b) bound) vals)
  | ObjCol _ => Raise TypeError
  end.

(** [key in df.columns]: the key is hashed first, and the labels are
    strings. *)
Definition index_contains (labels : list string) (key : pyval) : result bool :=
  match key with
  | PStr s => Ok (existsb (String.eqb s) labels)
  | PList _ | PDict _ => Raise TypeError
  | _ => Ok false
  end.

Definition Error_Details : string := "Error_Details".

(** The strings of a column after [msg] has been added to those the mask
    selects. *)
Fixpoint add_where (mask : list bool) (msg : string) (vals : list (option string))
  : list (option string) :=
  match vals with
  | [] => []
  | v :: vals' =>
      (if hd false mask
       then match v with Some s => Some (s ++ msg) | None => None end
       else v) :: add_where (tl mask) msg vals'
  end.

(** [df.loc[mask, "Error_Details"] += msg]. *)
Definition loc_iadd (df : DataFrame) (mask : list bool) (msg : string) : DataFrame :=
  match getitem df Error_Details with
  | Some (ObjCol vals) => setitem df Error_Details (ObjCol (add_where mask msg vals))
  | _ => df
  end.

(** [df["Error_Details"] += msg]. *)
Definition iadd (df : DataFrame) (msg : string) : DataFrame :=
  loc_iadd df (repeat true (nrows df)) msg.

(** The text of the Error_Details column, row by row. *)
Definition diagnostics (df : DataFrame) : list string :=
  match getitem df Error_Details with
  | Some (ObjCol vals) => map (fun v => match v with Some s => s | None => "" end) vals
  | _ => []
  end.

(** The workbook [validate_data] leaves behind: the table written by
    [to_excel] and, for each data row, whether its Error_Details cell was
    given the red fill. *)
Record report : Type := {
  table : DataFrame;
  red_fill : list bool
}.

Definition highlight (df : DataFrame) : list bool :=
  map (fun s => negb (String.eqb s EmptyString)) (diagnostics df).

(** [df.to_excel(output_file)] followed by the red fill. *)
Definition workbook (df : DataFrame) : report :=
  {| table := df; red_fill := highlight df |}.

(** [df["Error_Details"] = ""]. *)
Definition add_error_details (df : DataFrame) : DataFrame :=
  setitem df Error_Details (ObjCol (repeat (Some "") (nrows df))).

(* ================================================================== *)
(** * Reference instances of the library functions *)
(* ================================================================== *)

(** A decoder for JSON texts, used to run the pipeline on concrete
    inputs.  It follows the grammar [json.loads] accepts, except that a
    [\u] escape inside a string is refused. *)
Module Json.

Definition quote : ascii := "034"%char.
Definition backslash : ascii := "092"%char.

Definition is_ws (c : ascii) : bool :=
  Ascii.eqb c " "%char || Ascii.eqb c "009"%char
  || Ascii.eqb c "010"%char || Ascii.eqb c "013"%char.

Fixpoint skip_ws (s : string) : string :=
  match s with
  | String c s' => if is_ws c then skip_ws s' else s
  | EmptyString => EmptyString
  end.

Definition digit (c : ascii) : option Z :=
  let n := nat_of_ascii c in
  if ((48 <=? n)%nat && (n <=? 57)%nat)%bool
  then Some (Z.of_nat (n - 48))
  else None.

(** Reads a run of digits: the number they extend [acc] to, how many
    there were, and the rest. *)
Fixpoint digits (s : string) (acc : Z) (count : nat) : Z * nat * string :=
  match s with
  | String c s' =>
      match digit c with
      | Some d => digits s' (acc * 10 + d)%Z (S count)
      | None => (acc, count, s)
      end
  | EmptyString => (acc, count, s)
  end.

Definition exponent (s : string) : option (Z * string) :=
  match s with
  | String c r =>
      if (Ascii.eqb c "e"%char || Ascii.eqb c "E"%char)%bool then
        let '(negative, r1) :=
          match r with
          | String sgn r' =>
              if Ascii.eqb sgn "-"%char then (true, r')
              else if Ascii.eqb sgn "+"%char then (false, r')
              else (false, r)
          | EmptyString => (false, r)
          end in
        let '(e, n, r2) := digits r1 0%Z 0 in
        if (n =? 0)%nat then None
        else Some (if negative then (- e)%Z else e, r2)
      else None
  | EmptyString => None
  end.

Definition number (s : string) : option (pyval * string) :=
  let '(negative, s1) :=
    match s with
    | String c r => if Ascii.eqb c "-"%char then (true, r) else (false, s)
    | EmptyString => (false, s)
    end in
  let sign (z : Z) : Z := if negative then (- z)%Z else z in
  match s1 with
  | String c r =>
      match digit c with
      | None => None
      | Some d =>
          let '(int_part, _, s2) :=
            if Z.eqb d 0 then (0%Z, 1, r) else digits s1 0%Z 0 in
          let '(mantissa, frac_digits, s3) :=
            match s2 with
            | String dot r2 =>
                if Ascii.eqb dot "."%char then
                  let '(m, n, r3) := digits r2 int_part 0 in
                  if (n =? 0)%nat then (int_part, 0, s2) else (m, n, r3)
                else (int_part, 0, s2)
            | EmptyString => (int_part, 0, s2)
            end in
          match exponent s3, frac_digits with
          | None, O => Some (PInt (sign int_part), s3)
          | None, _ =>
              Some (PFloat (FNum (inject_Z (sign mantissa)
                                  * Qpower 10 (- Z.of_nat frac_digits))), s3)
          | Some (e, s4), _ =>
              Some (PFloat (FNum (inject_Z (sign mantissa)
                                  * Qpower 10 (e - Z.of_nat frac_digits))), s4)
          end
      end
  | EmptyString => None
  end.

Definition unescape (c : ascii) : option ascii :=
  if Ascii.eqb c quote then Some quote
  else if Ascii.eqb c backslash then Some backslash
  else if Ascii.eqb c "/"%char then Some "/"%char
  else if Ascii.eqb c "b"%char then Some "008"%char
  else if Ascii.eqb c "f"%char then Some "012"%char
  else if Ascii.eqb c "n"%char then Some "010"%char
  else if Ascii.eqb c "r"%char then Some "013"%char
  else if Ascii.eqb c "t"%char then Some "009"%char
  else None.

(** The characters of a string literal after its opening quote, and
    what follows its closing quote. *)
Fixpoint str_body (s : string) : option (string * string) :=
  match s with
  | EmptyString => None
  | String c r =>
      if Ascii.eqb c quote then Some (EmptyString, r)
      else if Ascii.eqb c backslash then
        match r with
        | String e r' =>
            match unescape e, str_body r' with
            | Some c', Some (body, rest) => Some (String c' body, rest)
            | _, _ => None
            end
        | EmptyString => None
        end
      else if (nat_of_ascii c <? 32)%nat then None
      else
        match str_body r with
        | Some (body, rest) => Some (String c body, rest)
        | None => None
        end
  end.

(** A later entry with the same key replaces the value of the earlier
    one. *)
Fixpoint dict_set (k : string) (v : pyval) (entries : list (string * pyval))
  : list (string * pyval) :=
  match entries with
  | [] => [(k, v)]
  | (k', v') :: rest =>
      if String.eqb k k' then (k', v) :: rest
      else (k', v') :: dict_set k v rest
  end.

Definition literal (s : string) : option (pyval * string) :=
  match Str.strip_prefix "null" s with
  | Some r => Some (PNone, r)
  | None =>
  match Str.strip_prefix "true" s with
  | Some r => Some (PBool true, r)
  | None =>
  match Str.strip_prefix "false" s with
  | Some r => Some (PBool false, r)
  | None =>
  match Str.strip_prefix "NaN" s with
  | Some r => Some (PFloat FNan, r)
  | None =>
  match Str.strip_prefix "Infinity" s with
  | Some r => Some (PFloat (FInf false), r)
  | None =>
  match Str.strip_prefix "-Infinity" s with
  | Some r => Some (PFloat (FInf true), r)
  | None => number s
  end end end end end end.

Fixpoint value (fuel : nat) (s : string) {struct fuel} : option (pyval * string) :=
  match fuel with
  | O => None
  | S fuel' =>
      match skip_ws s with
      | EmptyString => None
      | String c r as s0 =>
          if Ascii.eqb c quote then
            match str_body r with
            | Some (body, rest) => Some (PStr body, rest)
            | None => None
            end
          else if Ascii.eqb c "["%char then
            match skip_ws r with
            | String c' r' as r0 =>
                if Ascii.eqb c' "]"%char then Some (PList [], r')
                else elements fuel' r0 []
            | EmptyString => None
            end
          else if Ascii.eqb c "{"%char then
            match skip_ws r with
            | String c' r' as r0 =>
                if Ascii.eqb c' "}"%char then Some (PDict [], r')
                else members fuel' r0 []
            | EmptyString => None
            end
          else literal s0
      end
  end

with elements (fuel : nat) (s : string) (acc : list pyval) {struct fuel}
  : option (pyval * string) :=
  match fuel with
  | O => None
  | S fuel' =>
      match value fuel' s with
      | None => None
      | Some (v, rest) =>
          match skip_ws rest with
          | String c r =>
              if Ascii.eqb c ","%char then elements fuel' r (v :: acc)
              else if Ascii.eqb c "]"%char then Some (PList (rev (v :: acc)), r)
              else None
          | EmptyString => None
          end
      end
  end

with members (fuel : nat) (s : string) (acc : list (string * pyval)) {struct fuel}
  : option (pyval * string) :=
  match fuel with
  | O => None
  | S fuel' =>
      match skip_ws s with
      | String q r =>
          if Ascii.eqb q quote then
            match str_body r with
            | None => None
            | Some (key, rest) =>
                match skip_ws rest with
                | String colon r1 =>
                    if Ascii.eqb colon ":"%char then
                      match value fuel' r1 with
                      | None => None
                      | Some (v, rest') =>
                          match skip_ws rest' with
                          | String c r2 =>
                              if Ascii.eqb c ","%char
                              then members fuel' r2 (dict_set key v acc)
                              else if Ascii.eqb c "}"%char
                              then Some (PDict (dict_set key v acc), r2)
                              else None
                          | EmptyString => None
                          end
                      end
                    else None
                | EmptyString => None
                end
            end
          else None
      | EmptyString => None
      end
  end.

(** The whole text must be one value, white space around it allowed. *)
Definition loads (s : string) : option pyval :=
  match value (2 * length s + 2) s with
  | Some (v, rest) =>
      match skip_ws rest with
      | EmptyString => Some v
      | String _ _ => None
      end
  | None => None
  end.

End Json.

(** Double quote, to write JSON texts. *)
Definition dq : string := String Json.quote EmptyString.

(** The HTTP exchange of [extract_profile_rules]. *)
Record request : Type := {
  req_url : string;
  req_headers : list (string * string);
  req_json : pyval
}.

Record response : Type := {
  resp_status_code : Z;
  resp_text : string
}.

(** Instances of the library functions for concrete runs. *)
Module Sample.

Fixpoint join (sep : string) (parts : list string) : string :=
  match parts with
  | [] => EmptyString
  | [p] => p
  | p :: rest => p ++ sep ++ join sep rest
  end.

Definition repr_float (f : pyfloat) : string :=
  match f with
  | FNan => "nan"
  | FInf negative => if negative then "-inf" else "inf"
  | FNum q =>
      let r := Qred q in
      if Pos.eqb (Qden r) 1 then string_of_Z (Qnum r) ++ ".0"
      else string_of_Z (Qnum r) ++ "/" ++ string_of_Z (Z.pos (Qden r))
  end.

(** [repr], as CPython prints it, on [None], booleans, integers, NaN and
    the infinities, floats of integral value below 10^16, strings of
    printable characters without quote or backslash, and lists and dicts
    of these; a float with a fractional part is shown as a fraction. *)
Fixpoint repr (v : pyval) : string :=
  match v with
  | PNone => "None"
  | PBool b => if b then "True" else "False"
  | PInt z => string_of_Z z
  | PFloat f => repr_float f
  | PStr s => "'" ++ s ++ "'"
  | PList items => "[" ++ join ", " (map repr items) ++ "]"
  | PDict entries =>
      "{" ++ join ", " (map (fun kv => "'" ++ fst kv ++ "': " ++ repr (snd kv)) entries)
          ++ "}"
  end.

(** [float(s)] on the texts of JSON numbers and on nan, inf and -inf;
    every other text is refused, a text such as abc rightly so (CPython
    accepts a few more spellings of a number). *)
Definition str_to_float (s : string) : option pyfloat :=
  if String.eqb s "nan" then Some FNan
  else if String.eqb s "inf" then Some (FInf false)
  else if String.eqb s "-inf" then Some (FInf true)
  else
    match Json.number s with
    | Some (PInt z, EmptyString) => Some (FNum (inject_Z z))
    | Some (PFloat f, EmptyString) => Some f
    | _ => None
    end.

Definition float_eqb (a b : pyfloat) : bool :=
  match a, b with
  | FNum x, FNum y => Qeq_bool x y
  | FInf n, FInf m => Bool.eqb n m
  | _, _ => false
  end.

(** Membership of a cell among values of the same kind. *)
Definition isin (c : cell) (values : list pyval) : bool :=
  existsb (fun v =>
    match c, v with
    | CStr s, PStr t => String.eqb s t
    | CNum f, PInt z => float_eqb f (FNum (inject_Z z))
    | CNum f, PFloat g => float_eqb f g
    | CBool b, PBool b' => Bool.eqb b b'
    | _, _ => false
    end) values.

Definition getenv (name : string) : option string := None.

(** A server that answers every request with the same response. *)
Definition post (answer : response) (_ : request) : response := answer.

End Sample.

(* ================================================================== *)
(** * RuleExtractor and RuleValidationEngine *)
(* ================================================================== *)

Definition prompt : string :=
  "Extract structured data profiling rules from the following FR Y-14Q regulatory reporting instructions. "
  ++ "Ensure the output is strictly in JSON format as a list of dictionaries, where each dictionary has: "
  ++ "'column' (string, must be unique), 'constraint' (string, e.g., 'non-null', 'greater than', 'allowed values'), and 'value' (number or list). "
  ++ "Ensure each column name is unique. Do not include any text before or after the JSON output. Output only valid JSON.".

Definition default_model : string := "deepseek/deepseek-r1-zero:free".
Definition default_url : string := "https://openrouter.ai/api/v1/chat/completions".

(** [s.rstrip()]: the text is cut where only white space follows.  Past
    the first byte of a character the test fails, as no white space
    starts with a continuation byte. *)
Fixpoint rstrip (s : string) : string :=
  match s with
  | EmptyString => EmptyString
  | String c s' =>
      if String.eqb (Str.lstrip s) EmptyString then EmptyString
      else String c (rstrip s')
  end.

(** [s.strip()]. *)
Definition strip (s : string) : string := rstrip (Str.lstrip s).

(** The loop of [extract_text_from_pdf]: [text += page.extract_text() + "\n"]
    for each page in turn.  A page is the string [extract_text] gives for
    it, or [None] when it gives None, and adding a string to None
    raises. *)
Fixpoint add_pages (text : string) (pages : list (option string)) : result string :=
  match pages with
  | [] => Ok text
  | Some page_text :: rest => add_pages (text ++ (page_text ++ LF)) rest
  | None :: _ => Raise TypeError
  end.

(** [extract_text_from_pdf], on the pages [pdfplumber.open] gives for the
    file. *)
Definition extract_text_from_pdf (pages : list (option string)) : result string :=
  add_pages EmptyString pages.

(** The value of a header of a request. *)
Fixpoint header (name : string) (headers : list (string * string)) : option string :=
  match headers with
  | [] => None
  | (n, v) :: rest => if String.eqb name n then Some v else header name rest
  end.

Section Pipeline.

(** [json.loads]: [None] stands for [json.JSONDecodeError]. *)
Variable json_loads : string -> option pyval.
(** [repr] of a float, a list or a dict. *)
Variable py_repr : pyval -> string.
(** [float] of a string: [None] stands for [ValueError]. *)
Variable str_to_float : string -> option pyfloat.
(** Whether [Series.isin] selects a cell, given the listed values. *)
Variable isin : cell -> list pyval -> bool.
(** [requests.post] and [os.getenv]. *)
Variable requests_post : request -> response.
Variable getenv : string -> option string.

(** [f"{v}"]. *)
Definition py_str (v : pyval) : string :=
  match v with
  | PNone => "None"
  | PBool b => if b then "True" else "False"
  | PInt z => string_of_Z z
  | PStr s => s
  | PFloat _ | PList _ | PDict _ => py_repr v
  end.

(** [float(v)]: an integer whose binary64 value would be an infinity
    raises OverflowError. *)
Definition py_float (v : pyval) : result pyfloat :=
  match v with
  | PInt z =>
      match binary64 (FNum (inject_Z z)) with
      | FNum q => Ok (FNum q)
      | _ => Raise OverflowError
      end
  | PFloat f => Ok f
  | PBool b => Ok (float_of_bool b)
  | PStr s =>
      match str_to_float s with
      | Some f => Ok f
      | None => Raise ValueError
      end
  | PNone | PList _ | PDict _ => Raise TypeError
  end.

Definition extract_profile_rules
  (text model : string) (api_key : option string) (url : string) : result string :=
  let api_key :=
    match api_key with
    | None => getenv "DEEPSEEK_API_KEY"
    | Some k => Some k
    end in
  let headers :=
    [("Authorization", "Bearer " ++ format_opt api_key);
     ("Content-Type", "application/json")] in
  let data :=
    PDict [("model", PStr model);
           ("messages",
            PList [PDict [("role", PStr "system"); ("content", PStr prompt)];
                   PDict [("role", PStr "user"); ("content", PStr text)]]);
           ("temperature", PFloat (FNum (2 # 10)));
           ("stream", PBool false)] in
  let response :=
    requests_post {| req_url := url; req_headers := headers; req_json := data |} in
  if negb (Z.eqb (resp_status_code response) 200) then Ok "[]"
  else
    match json_loads (resp_text response) with
    | None => Ok "[]"
    | Some result =>
        choices <- py_get result "choices" (PList []) ;;
        missing <-
          (if negb (truthy choices) then Ok true
           else
             first <- py_getitem0 choices ;;
             has_message <- py_in "message" first ;;
             if negb has_message then Ok true
             else
               message <- py_getitem first "message" ;;
               has_content <- py_in "content" message ;;
               Ok (negb has_content)) ;;
        if (missing : bool) then Ok "[]"
        else
          first <- py_getitem0 choices ;;
          message <- py_getitem first "message" ;;
          rules_text <- py_getitem message "content" ;;
          match rules_text with
          | PStr s =>
              let cleaned_json := clean_json_response s in
              if Str.startswith "[" (strip cleaned_json)
              then Ok cleaned_json
              else Ok "[]"
          | _ => Raise TypeError
          end
    end.

(** The body of the loop of [validate_data], for one rule. *)
Definition apply_rule (df : DataFrame) (rule : pyval) : result DataFrame :=
  column <- py_get rule "column" PNone ;;
  constraint <- py_get rule "constraint" PNone ;;
  value <- py_get rule "value" PNone ;;
  if (negb (truthy column) || negb (truthy constraint))%bool then Ok df
  else
    present <- index_contains (names df) column ;;
    if (present : bool) then
      match column with
      | PStr name =>
          match getitem df name with
          | Some col =>
              if py_eq_str constraint "non-null" then
                Ok (loc_iadd df (isnull col)
                      (py_str column ++ " is missing. Provide a valid value. "))
              else if (py_eq_str constraint "greater than"
                       && is_numeric_dtype col)%bool then
                bound <- py_float value ;;
                mask <- le_float col bound ;;
                Ok (loc_iadd df mask
                      (py_str column ++ " must be greater than "
                       ++ py_str value ++ ". "))
              else if (py_eq_str constraint "allowed values"
                       && is_list value)%bool then
                match value with
                | PList allowed =>
                    Ok (loc_iadd df
                          (map (fun c => negb (isin c allowed)) (cells col))
                          (py_str column ++ " must be one of "
                           ++ py_str value ++ ". "))
                | _ => Ok df
                end
              else Ok df
          | None => Raise KeyError (* not reached: the label is present *)
          end
      | _ => Raise KeyError (* not reached: only a string is a label *)
      end
    else Ok (iadd df (py_str column ++ " is missing in the dataset. ")).

(** The loop over the rules, in order; it stops at the first exception. *)
Fixpoint run_rules (df : DataFrame) (rules : list pyval) : result DataFrame :=
  match rules with
  | [] => Ok df
  | rule :: rest =>
      df' <- apply_rule df rule ;;
      run_rules df' rest
  end.

(** [validate_data], on the frame [pd.read_csv] gave for the data file.
    [Ok None] is the return without a workbook, [Ok (Some r)] the return
    after the workbook [r] has been written, [Raise e] an exception that
    reaches the caller. *)
Definition validate_data (df : DataFrame) (rules : string) : result (option report) :=
  match json_loads rules with
  | None => Ok None
  | Some rules =>
      let df := add_error_details df in
      items <- py_iter rules ;;
      df <- run_rules df items ;;
      Ok (Some (workbook df))
  end.

(** The script itself: the text of the PDF goes to
    [extract_profile_rules] with the default model and endpoint and the
    key written in the script, and what comes back goes to
    [validate_data] with the frame of the CSV file. *)
Definition main (pages : list (option string)) (api_key : string) (df : DataFrame)
  : result (option report) :=
  text <- extract_text_from_pdf pages ;;
  profiling_rules <-
    extract_profile_rules text default_model (Some api_key) default_url ;;
  validate_data df profiling_rules.

(* ================================================================== *)
(** * Vocabulary of the statements *)
(* ================================================================== *)

(** The frame [df] with the strings [d] as its Error_Details column. *)
Definition with_diag (df : DataFrame) (d : list string) : DataFrame :=
  setitem df Error_Details (ObjCol (map Some d)).

(** [add_where] on plain strings. *)
Fixpoint add_text (mask : list bool) (msg : string) (d : list string) : list string :=
  match d with
  | [] => []
  | s :: d' =>
      (if hd false mask then s ++ msg else s) :: add_text (tl mask) msg d'
  end.

(** Row by row, the second text is the first one with something added
    at its end. *)
Definition appended (d d' : list string) : Prop :=
  Forall2 (fun a b => exists t, b = a ++ t) d d'.

(** The numbers of a numeric column, as the comparison sees them. *)
Definition numeric_values (c : column) : list pyfloat :=
  match c with
  | NumCol vals => vals
  | BoolCol vals => map float_of_bool vals
  | ObjCol _ => []
  end.

(** A JSON object. *)
Definition is_dict (v : pyval) : bool :=
  match v with
  | PDict _ => true
  | _ => false
  end.

(** The field of a rule, [None] when the rule does not have it. *)
Definition field (key : string) (entries : list (string * pyval)) : pyval :=
  match lookup key entries with
  | Some v => v
  | None => PNone
  end.

(** ** Data of the examples *)

(** A numeric column Amount with the rows -5 and 10. *)
Definition amounts : DataFrame :=
  {| nrows := 2; columns := [("Amount", NumCol [FNum (-5); FNum 10])] |}.

(** A frame read from a file that already has an Error_Details column. *)
Definition annotated : DataFrame :=
  {| nrows := 1;
     columns := [("Error_Details", ObjCol [Some "old"]);
                 ("Amount", NumCol [FNum 1])] |}.

(** The JSON text of a rule set with one rule; [value] is JSON text. *)
Definition rule_text (column constraint value : string) : string :=
  "[{" ++ dq ++ "column" ++ dq ++ ": " ++ dq ++ column ++ dq ++ ", "
  ++ dq ++ "constraint" ++ dq ++ ": " ++ dq ++ constraint ++ dq ++ ", "
  ++ dq ++ "value" ++ dq ++ ": " ++ value ++ "}]".

(** What that text decodes to. *)
Definition rule_entries (column constraint : string) (value : pyval)
  : list (string * pyval) :=
  [("column", PStr column); ("constraint", PStr constraint); ("value", value)].

(** The JSON texts of an object that is no rule set and of an array that
    holds no object. *)
Definition object_text : string := "{" ++ dq ++ "a" ++ dq ++ ": 1}".
Definition array_text : string := "[1]".

(** A text with a fenced block and a text with a boxed wrapper. *)
Definition fenced_text : string :=
  "Here: " ++ fence_open ++ "[1]" ++ fence_close ++ " done".
Definition boxed_text : string :=
  "\boxed{[{" ++ dq ++ "a" ++ dq ++ ":1}]}".

(** The body of a chat completion whose message has the given content
    (JSON text). *)
Definition completion_text (content : string) : string :=
  "{" ++ dq ++ "choices" ++ dq ++ ": [{" ++ dq ++ "message" ++ dq ++ ": {"
  ++ dq ++ "content" ++ dq ++ ": " ++ content ++ "}}]}".

(** A column Status of strings, its second value missing in the third
    row. *)
Definition statuses : DataFrame :=
  {| nrows := 3;
     columns := [("Status", ObjCol [Some "A"; Some "C"; None])] |}.

(** A rule set with the same rule twice. *)
Definition rule_text_twice (column constraint value : string) : string :=
  "[{" ++ dq ++ "column" ++ dq ++ ": " ++ dq ++ column ++ dq ++ ", "
  ++ dq ++ "constraint" ++ dq ++ ": " ++ dq ++ constraint ++ dq ++ ", "
  ++ dq ++ "value" ++ dq ++ ": " ++ value ++ "}, {"
  ++ dq ++ "column" ++ dq ++ ": " ++ dq ++ column ++ dq ++ ", "
  ++ dq ++ "constraint" ++ dq ++ ": " ++ dq ++ constraint ++ dq ++ ", "
  ++ dq ++ "value" ++ dq ++ ": " ++ value ++ "}]".

(** A rule set whose only rule has no column. *)
Definition columnless_text : string :=
  "[{" ++ dq ++ "constraint" ++ dq ++ ": " ++ dq ++ "non-null" ++ dq ++ "}]".

(** A rule set whose only rule has a JSON value, not a string, as its
    column. *)
Definition odd_column_text (column : string) : string :=
  "[{" ++ dq ++ "column" ++ dq ++ ": " ++ column ++ ", "
  ++ dq ++ "constraint" ++ dq ++ ": " ++ dq ++ "non-null" ++ dq ++ "}]".

(** The JSON text of a string holding a fenced block around [[1]]. *)
Definition fenced_content : string :=
  dq ++ "```json\n[1]\n```" ++ dq.

(** A server that gives [answer] at one URL and [other] elsewhere. *)
Definition server_at (url : string) (answer other : response) (req : request)
  : response :=
  if String.eqb (req_url req) url then answer else other.

(** The JSON text of the list of the strings A and B. *)
Definition a_or_b : string :=
  "[" ++ dq ++ "A" ++ dq ++ ", " ++ dq ++ "B" ++ dq ++ "]".

(* ================================================================== *)
(** * Properties of the string search *)
(* ================================================================== *)

Lemma app_assoc_s (a b c : string) : (a ++ b) ++ c = a ++ b ++ c.
Proof.
  induction a as [|x a IH]; simpl; [reflexivity | now rewrite IH].
Qed.

Lemma app_nil_r_s (a : string) : a ++ "" = a.
Proof.
  induction a as [|x a IH]; simpl; [reflexivity | now rewrite IH].
Qed.

Lemma length_app_s (a b : string) : length (a ++ b) = (length a + length b)%nat.
Proof.
  induction a as [|x a IH]; simpl; [reflexivity | now rewrite IH].
Qed.

Lemma app_inv_head_s (a b c : string) : a ++ b = a ++ c -> b = c.
Proof.
  induction a as [|x a IH]; simpl; intros H; [exact H | injection H; auto].
Qed.

(** Two prefixes of one string that have the same length are equal. *)
Lemma app_inv_length_s (a a' b b' : string) :
  a ++ b = a' ++ b' -> length a = length a' -> a = a' /\ b = b'.
Proof.
  revert a'; induction a as [|x a IH]; intros [|y a']; simpl; intros H L;
    try discriminate.
  - split; [reflexivity | exact H].
  - injection H as -> H. injection L as L.
    destruct (IH a' H L) as [-> ->]. split; reflexivity.
Qed.

(** A suffix [w] of [u ++ rest] that is no longer than [rest] is a suffix
    of [rest]. *)
Lemma suffix_within (u rest v w : string) :
  u ++ rest = v ++ w -> (length w <= length rest)%nat ->
  exists x, rest = x ++ w.
Proof.
  revert v; induction u as [|a u IH]; simpl; intros v H L.
  - exists v. exact H.
  - destruct v as [|b v]; simpl in H.
    + subst w. simpl in L. rewrite length_app_s in L. lia.
    + injection H as _ H. exact (IH v H L).
Qed.

Lemma strip_prefix_sound (p s r : string) :
  Str.strip_prefix p s = Some r -> s = p ++ r.
Proof.
  revert s; induction p as [|a p IH]; simpl; intros s H.
  - now injection H as ->.
  - destruct s as [|b s]; [discriminate|].
    destruct (Ascii.eqb_spec a b) as [->|]; [|discriminate].
    now rewrite (IH s H).
Qed.

Lemma strip_prefix_app (p r : string) : Str.strip_prefix p (p ++ r) = Some r.
Proof.
  induction p as [|a p IH]; simpl; [reflexivity|].
  now rewrite Ascii.eqb_refl.
Qed.

Lemma split_first_sound (pat s before after : string) :
  Str.split_first pat s = Some (before, after) -> s = before ++ pat ++ after.
Proof.
  revert before; induction s as [|c s IH]; intros before; simpl.
  - destruct (Str.strip_prefix pat "") as [r|] eqn:E; [|discriminate].
    intros H; injection H as <- <-. simpl. now apply strip_prefix_sound.
  - destruct (Str.strip_prefix pat (String c s)) as [r|] eqn:E.
    + intros H; injection H as <- <-. simpl. now apply strip_prefix_sound.
    + destruct (Str.split_first pat s) as [[b a]|] eqn:F; [|discriminate].
      intros H; injection H as <- <-. simpl. now rewrite (IH b eq_refl).
Qed.

(** No occurrence starts to the left of the one [split_first] finds. *)
Lemma split_first_least (pat s before after : string) :
  Str.split_first pat s = Some (before, after) ->
  forall before', Str.occurs_at pat s before' ->
  (length before <= length before')%nat.
Proof.
  revert before; induction s as [|c s IH]; intros before; simpl.
  - destruct (Str.strip_prefix pat "") as [r|]; [|discriminate].
    intros H; injection H as <- <-. simpl; lia.
  - destruct (Str.strip_prefix pat (String c s)) as [r|] eqn:E.
    + intros H; injection H as <- <-. simpl; lia.
    + destruct (Str.split_first pat s) as [[b a]|] eqn:F; [|discriminate].
      intros H; injection H as <- <-. intros before' [after' O].
      destruct before' as [|c' before']; simpl in O.
      * rewrite O, strip_prefix_app in E. discriminate.
      * injection O as _ O. simpl.
        assert (length b <= length before')%nat; [|lia].
        apply (IH b eq_refl). now exists after'.
Qed.

Lemma split_first_complete (pat s before after : string) :
  s = before ++ pat ++ after ->
  exists before' after', Str.split_first pat s = Some (before', after').
Proof.
  revert s; induction before as [|c before IH]; intros s ->; simpl.
  - destruct (pat ++ after) as [|x t] eqn:E; simpl; rewrite <- E;
      rewrite strip_prefix_app; eauto.
  - destruct (Str.strip_prefix pat (String c (before ++ pat ++ after))); [eauto|].
    destruct (IH _ eq_refl) as (b & a & ->). eauto.
Qed.

Lemma split_first_none (pat s : string) :
  Str.split_first pat s = None ->
  forall before after, s <> before ++ pat ++ after.
Proof.
  intros N before after E.
  destruct (split_first_complete _ _ before after E) as (b & a & H). congruence.
Qed.

(** [split_first] finds the first occurrence, whatever names it. *)
Lemma split_first_first_at (pat s before after : string) :
  s = before ++ pat ++ after -> Str.first_at pat s before ->
  Str.split_first pat s = Some (before, after).
Proof.
  intros E [_ least].
  destruct (split_first_complete _ _ before after E) as (b & a & H).
  pose proof (split_first_sound _ _ _ _ H) as E'.
  assert (length b <= length before)%nat
    by (apply (split_first_least _ _ _ _ H); now exists after).
  assert (length before <= length b)%nat by (apply least; now exists a).
  rewrite E in E'.
  destruct (app_inv_length_s _ _ _ _ E') as [-> E'']; [lia|].
  apply app_inv_head_s in E''. now subst a.
Qed.

Lemma split_first_is_first_at (pat s before after : string) :
  Str.split_first pat s = Some (before, after) -> Str.first_at pat s before.
Proof.
  intros H. split.
  - exists after. now apply split_first_sound.
  - now apply (split_first_least _ _ _ _ H).
Qed.

Lemma lazy_group_split (closing s : string) :
  lazy_group closing s
  = match Str.split_first closing s with
    | Some (group, _) => Some group
    | None => None
    end.
Proof.
  induction s as [|c s IH]; simpl.
  - now destruct (Str.strip_prefix closing "").
  - destruct (Str.strip_prefix closing (String c s)); [reflexivity|].
    rewrite IH. now destruct (Str.split_first closing s) as [[g t]|].
Qed.

(** A match of the search is an occurrence of the two literals around
    the group. *)
Lemma re_search_group_occurs (opening closing s group : string) :
  re_search_group opening closing s = Some group ->
  exists pre post, s = pre ++ opening ++ group ++ closing ++ post.
Proof.
  induction s as [|c s IH]; simpl; unfold match_here.
  - destruct (Str.strip_prefix opening "") as [rest|] eqn:E; [|discriminate].
    rewrite lazy_group_split.
    destruct (Str.split_first closing rest) as [[g t]|] eqn:F; [|discriminate].
    intros H; injection H as ->. exists "", t. simpl.
    rewrite (strip_prefix_sound _ _ _ E).
    now rewrite (split_first_sound _ _ _ _ F).
  - destruct (Str.strip_prefix opening (String c s)) as [rest|] eqn:E.
    + rewrite lazy_group_split.
      destruct (Str.split_first closing rest) as [[g t]|] eqn:F.
      * intros H; injection H as ->. exists "", t. simpl.
        rewrite (strip_prefix_sound _ _ _ E).
        now rewrite (split_first_sound _ _ _ _ F).
      * intros H. destruct (IH H) as (pre & post & ->).
        now exists (String c pre), post.
    + intros H. destruct (IH H) as (pre & post & ->).
      now exists (String c pre), post.
Qed.

(** The search by positions finds the leftmost opening literal and the
    first closing literal after it. *)
Lemma re_search_group_split (opening closing s : string) :
  re_search_group opening closing s
  = match Str.split_first opening s with
    | None => None
    | Some (_, rest) =>
        match Str.split_first closing rest with
        | None => None
        | Some (group, _) => Some group
        end
    end.
Proof.
  induction s as [|c s IH]; simpl; unfold match_here.
  - destruct (Str.strip_prefix opening "") as [rest|]; [|reflexivity].
    rewrite lazy_group_split.
    now destruct (Str.split_first closing rest) as [[g t]|].
  - destruct (Str.strip_prefix opening (String c s)) as [rest|] eqn:E.
    + rewrite lazy_group_split.
      destruct (Str.split_first closing rest) as [[g t]|] eqn:F;
        [reflexivity|].
      destruct (re_search_group opening closing s) as [g|] eqn:R;
        [exfalso|reflexivity].
      destruct (re_search_group_occurs _ _ _ _ R) as (pre & post & Es).
      apply strip_prefix_sound in E.
      assert (exists x, rest = x ++ closing ++ post) as [x Ex].
      { apply (suffix_within opening rest (String c pre ++ opening ++ g)).
        - rewrite <- E, Es. simpl. now rewrite !app_assoc_s.
        - apply (f_equal length) in E. rewrite Es in E. simpl in E.
          rewrite !length_app_s in *. lia. }
      exact (split_first_none _ _ F x post Ex).
    + rewrite IH.
      now destruct (Str.split_first opening s) as [[b rest]|].
Qed.

(** The regular expression has no match when the two literals do not
    occur one after the other. *)
Lemma re_search_group_none (opening closing s : string) :
  (forall pre mid post, s <> pre ++ opening ++ mid ++ closing ++ post) ->
  re_search_group opening closing s = None.
Proof.
  intros N. rewrite re_search_group_split.
  destruct (Str.split_first opening s) as [[b rest]|] eqn:E; [|reflexivity].
  destruct (Str.split_first closing rest) as [[g t]|] eqn:F; [|reflexivity].
  exfalso. apply (N b g t).
  rewrite (split_first_sound _ _ _ _ E). now rewrite (split_first_sound _ _ _ _ F).
Qed.

(** When they do, the match is the leftmost opening and the first closing
    after it, and the group is the text between them. *)
Lemma re_search_group_some (opening closing s pre mid post : string) :
  s = pre ++ opening ++ mid ++ closing ++ post ->
  exists pre' group post',
    s = pre' ++ opening ++ group ++ closing ++ post' /\
    Str.first_at opening s pre' /\
    Str.first_at closing (group ++ closing ++ post') group /\
    re_search_group opening closing s = Some group.
Proof.
  intros E. rewrite re_search_group_split.
  destruct (split_first_complete _ _ pre (mid ++ closing ++ post) E)
    as (b & rest & H).
  pose proof (split_first_sound _ _ _ _ H) as Eb.
  assert (L : (length b <= length pre)%nat).
  { apply (split_first_least _ _ _ _ H). now exists (mid ++ closing ++ post). }
  assert (exists x, rest = x ++ mid ++ closing ++ post) as [x Ex].
  { apply (suffix_within (b ++ opening) rest (pre ++ opening)).
    - rewrite !app_assoc_s. now rewrite <- Eb.
    - apply (f_equal length) in Eb. rewrite E in Eb.
      rewrite !length_app_s in *. lia. }
  assert (rest = (x ++ mid) ++ closing ++ post) as Ex'
    by now rewrite app_assoc_s.
  destruct (split_first_complete _ _ _ _ Ex') as (g & t & F).
  pose proof (split_first_sound _ _ _ _ F) as Eg.
  exists b, g, t. rewrite H, F. repeat split.
  - now rewrite Eb, Eg.
  - exists rest. exact Eb.
  - apply (split_first_least _ _ _ _ H).
  - exists t. reflexivity.
  - rewrite <- Eg. apply (split_first_least _ _ _ _ F).
Qed.

(** A character met before the end of [c] in [c ++ rest] lies in [c]. *)
Lemma char_within_prefix (c rest before after : string) (ch : ascii) :
  c ++ rest = before ++ String ch after ->
  (length before < length c)%nat ->
  exists after', c = before ++ String ch after'.
Proof.
  revert c; induction before as [|z before IH]; intros [|x c]; simpl;
    intros E L; try lia.
  - injection E as -> _. now exists c.
  - injection E as -> E. destruct (IH c E) as [y ->]; [lia|]. now exists y.
Qed.

(* ================================================================== *)
(** * Properties of [clean_json_response] *)
(* ================================================================== *)

(** The group of a fenced block that is the first one of the text. *)
Lemma clean_json_response_first_fence (pre body post : string) :
  let raw := pre ++ fence_open ++ body ++ fence_close ++ post in
  Str.first_at fence_open raw pre ->
  Str.first_at fence_close (body ++ fence_close ++ post) body ->
  clean_json_response raw = body.
Proof.
  intros raw Fo Fc. subst raw. unfold clean_json_response.
  rewrite re_search_group_split.
  rewrite (split_first_first_at _ _ pre (body ++ fence_close ++ post) eq_refl Fo).
  now rewrite (split_first_first_at _ _ body post eq_refl Fc).
Qed.

(** C7: on a text with a well-formed json fence, [clean_json_response]
    returns the interior of the first fence, markers removed: the text
    between the leftmost opening marker and the first closing marker
    after it, whatever lines it spans; on a text with neither a fenced
    block nor a boxed wrapper it returns the text unchanged. *)
Theorem clean_json_response_fence_or_identity (raw : string) :
  (forall pre mid post,
     raw = pre ++ fence_open ++ mid ++ fence_close ++ post ->
     exists pre' body post',
       raw = pre' ++ fence_open ++ body ++ fence_close ++ post' /\
       Str.first_at fence_open raw pre' /\
       Str.first_at fence_close (body ++ fence_close ++ post') body /\
       clean_json_response raw = body)
  /\
  ((forall pre mid post,
      raw <> pre ++ fence_open ++ mid ++ fence_close ++ post) ->
   (forall pre mid post,
      raw <> pre ++ boxed_open ++ mid ++ boxed_close ++ post) ->
   clean_json_response raw = raw).
Proof.
  split.
  - intros pre mid post E.
    destruct (re_search_group_some fence_open fence_close raw pre mid post E)
      as (pre' & body & post' & E' & Fo & Fc & R).
    exists pre', body, post'. repeat split; try assumption;
      try apply Fo; try apply Fc.
    unfold clean_json_response. now rewrite R.
  - intros Nf Nb. unfold clean_json_response.
    rewrite (re_search_group_none _ _ _ Nf).
    now rewrite (re_search_group_none _ _ _ Nb).
Qed.

(** C9: without a json fence, a boxed wrapper whose content has a closing
    brace gives only the part of the content before its first closing
    brace, which is not the whole content. *)
Theorem clean_json_response_boxed_truncates (raw pre content post c1 c2 : string) :
  raw = pre ++ boxed_open ++ content ++ boxed_close ++ post ->
  (forall p m q, raw <> p ++ fence_open ++ m ++ fence_close ++ q) ->
  Str.first_at boxed_open raw pre ->
  content = c1 ++ "}" ++ c2 ->
  (forall x y, c1 <> x ++ "}" ++ y) ->
  clean_json_response raw = c1 /\ c1 <> content.
Proof.
  intros -> Nf Fb Ec Nc. split.
  - unfold clean_json_response.
    rewrite (re_search_group_none _ _ _ Nf). rewrite re_search_group_split.
    rewrite (split_first_first_at _ _ pre (content ++ boxed_close ++ post)
               eq_refl Fb).
    assert (Er : content ++ boxed_close ++ post
                 = c1 ++ boxed_close ++ c2 ++ boxed_close ++ post).
    { rewrite Ec. unfold boxed_close. now rewrite !app_assoc_s. }
    rewrite (split_first_first_at _ _ c1 (c2 ++ boxed_close ++ post) Er);
      [reflexivity|].
    split; [now exists (c2 ++ boxed_close ++ post)|].
    intros before' [after' O].
    destruct (Nat.le_gt_cases (length c1) (length before')) as [L|L];
      [exact L|exfalso].
    rewrite Er in O.
    destruct (char_within_prefix c1 _ before' after' "}"%char O L) as [y Ey].
    exact (Nc before' y Ey).
  - intros E. rewrite Ec in E at 1. apply (f_equal length) in E.
    rewrite !length_app_s in E. simpl in E. lia.
Qed.

(* ================================================================== *)
(** * The frame under [validate_data] *)
(* ================================================================== *)

Lemma find_col_set_same (name : string) (c : column) cols :
  find_col name (set_col name c cols) = Some c.
Proof.
  induction cols as [|[n c'] cols IH]; simpl.
  - now rewrite String.eqb_refl.
  - destruct (String.eqb name n) eqn:E; simpl; rewrite E; auto.
Qed.

Lemma find_col_set_other (name n : string) (c : column) cols :
  n <> name -> find_col n (set_col name c cols) = find_col n cols.
Proof.
  intros N. induction cols as [|[m c'] cols IH]; simpl.
  - apply String.eqb_neq in N. now rewrite N.
  - destruct (String.eqb name m) eqn:E; simpl.
    + apply String.eqb_eq in E; subst m.
      apply String.eqb_neq in N. now rewrite N.
    + now rewrite IH.
Qed.

Lemma set_col_twice (name : string) (c1 c2 : column) cols :
  set_col name c2 (set_col name c1 cols) = set_col name c2 cols.
Proof.
  induction cols as [|[n c'] cols IH]; simpl.
  - now rewrite String.eqb_refl.
  - destruct (String.eqb name n) eqn:E; simpl; rewrite E; [reflexivity|].
    now rewrite IH.
Qed.

Lemma set_col_absent (name : string) (c : column) cols :
  ~ In name (map fst cols) -> set_col name c cols = (cols ++ [(name, c)])%list.
Proof.
  induction cols as [|[n c'] cols IH]; simpl; intros N; [reflexivity|].
  destruct (String.eqb_spec name n) as [->|_].
  - exfalso. apply N. now left.
  - rewrite IH; [reflexivity|]. intros I. apply N. now right.
Qed.

Lemma names_set_col (name : string) (c c' : column) cols :
  map fst (set_col name c cols) = map fst (set_col name c' cols).
Proof.
  induction cols as [|[n c0] cols IH]; simpl; [reflexivity|].
  destruct (String.eqb name n); simpl; [reflexivity | now rewrite IH].
Qed.

Lemma in_names_set_col (name n : string) (c : column) cols :
  In n (map fst (set_col name c cols)) <-> In n (map fst cols) \/ n = name.
Proof.
  clear json_loads py_repr str_to_float isin requests_post getenv.
  induction cols as [|[m c0] cols IH]; simpl.
  - intuition auto.
  - destruct (String.eqb_spec name m) as [->|_]; simpl; intuition auto.
Qed.

Lemma existsb_names_find (name : string) (cols : list (string * column)) :
  existsb (String.eqb name) (map fst cols) = true <-> In name (map fst cols).
Proof.
  rewrite existsb_exists. split.
  - intros (x & I & E). apply String.eqb_eq in E. now subst.
  - intros I. exists name. split; [exact I | apply String.eqb_refl].
Qed.

Lemma find_col_in_names (name : string) (c : column) (cols : list (string * column)) :
  find_col name cols = Some c -> In name (map fst cols).
Proof.
  induction cols as [|[n c'] cols IH]; simpl; [discriminate|].
  destruct (String.eqb_spec name n) as [->|_]; auto.
Qed.

Lemma map_unsome (d : list string) :
  map (fun v : option string => match v with Some s => s | None => "" end)
      (map Some d) = d.
Proof.
  induction d as [|s d IH]; simpl; [reflexivity | now rewrite IH].
Qed.

Lemma add_where_text (mask : list bool) (msg : string) (d : list string) :
  add_where mask msg (map Some d) = map Some (add_text mask msg d).
Proof.
  revert mask; induction d as [|s d IH]; intros mask; simpl; [reflexivity|].
  rewrite IH. now destruct (hd false mask).
Qed.

Lemma length_add_text (mask : list bool) (msg : string) (d : list string) :
  List.length (add_text mask msg d) = List.length d.
Proof.
  revert mask; induction d as [|s d IH]; intros mask; simpl; auto.
Qed.

Lemma add_text_appended (mask : list bool) (msg : string) (d : list string) :
  appended d (add_text mask msg d).
Proof.
  revert mask; induction d as [|s d IH]; intros mask; simpl; constructor.
  - destruct (hd false mask); [now exists msg|].
    exists "". now rewrite app_nil_r_s.
  - apply IH.
Qed.

Lemma add_text_all (n : nat) (msg : string) (d : list string) :
  (List.length d <= n)%nat ->
  add_text (repeat true n) msg d = map (fun s => s ++ msg) d.
Proof.
  revert n; induction d as [|s d IH]; intros n L; simpl; [reflexivity|].
  destruct n as [|n]; simpl in *; [lia|].
  rewrite IH; [reflexivity | lia].
Qed.

(** The mask of a column with one value per row, on an empty text. *)
Lemma add_text_fresh {A : Type} (f : A -> bool) (vals : list A) (msg : string) :
  add_text (map f vals) msg (repeat "" (List.length vals))
  = map (fun x => if f x then msg else "") vals.
Proof.
  induction vals as [|x vals IH]; simpl; [reflexivity|].
  now rewrite IH.
Qed.

Lemma appended_refl (d : list string) : appended d d.
Proof.
  induction d as [|s d IH]; constructor; [|exact IH].
  exists "". now rewrite app_nil_r_s.
Qed.

Lemma appended_trans (d1 d2 d3 : list string) :
  appended d1 d2 -> appended d2 d3 -> appended d1 d3.
Proof.
  intros H; revert d3; induction H as [|a b d1 d2 [t ->] _ IH];
    intros d3 H3; inversion H3 as [|? c ? d3' [u ->] H3']; subst; constructor.
  - exists (t ++ u). now rewrite app_assoc_s.
  - now apply IH.
Qed.

Lemma appended_length (d d' : list string) :
  appended d d' -> List.length d' = List.length d.
Proof.
  induction 1; simpl; auto.
Qed.

Lemma add_error_details_with_diag (df : DataFrame) :
  add_error_details df = with_diag df (repeat "" (nrows df)).
Proof.
  unfold add_error_details, with_diag. now rewrite map_repeat.
Qed.

Lemma getitem_with_diag (df : DataFrame) (d : list string) :
  getitem (with_diag df d) Error_Details = Some (ObjCol (map Some d)).
Proof.
  apply find_col_set_same.
Qed.

Lemma getitem_with_diag_other (df : DataFrame) (d : list string) (name : string) :
  name <> Error_Details -> getitem (with_diag df d) name = getitem df name.
Proof.
  intros N. now apply find_col_set_other.
Qed.

Lemma diagnostics_with_diag (df : DataFrame) (d : list string) :
  diagnostics (with_diag df d) = d.
Proof.
  unfold diagnostics. rewrite getitem_with_diag. apply map_unsome.
Qed.

Lemma names_with_diag (df : DataFrame) (d : list string) (name : string) :
  In name (names (with_diag df d)) <-> In name (names df) \/ name = Error_Details.
Proof.
  apply in_names_set_col.
Qed.

Lemma columns_with_diag (df : DataFrame) (d : list string) :
  ~ In Error_Details (names df) ->
  columns (with_diag df d)
  = (columns df ++ [(Error_Details, ObjCol (map Some d))])%list.
Proof.
  intros N. now apply set_col_absent.
Qed.

Lemma loc_iadd_with_diag (df : DataFrame) (d : list string) mask msg :
  loc_iadd (with_diag df d) mask msg = with_diag df (add_text mask msg d).
Proof.
  unfold loc_iadd. rewrite getitem_with_diag, add_where_text.
  unfold with_diag, setitem; simpl. now rewrite set_col_twice.
Qed.

Lemma iadd_with_diag (df : DataFrame) (d : list string) msg :
  List.length d = nrows df ->
  iadd (with_diag df d) msg = with_diag df (map (fun s => s ++ msg) d).
Proof.
  intros L. unfold iadd. rewrite loc_iadd_with_diag. simpl.
  rewrite add_text_all; [reflexivity | lia].
Qed.

(** One rule leaves the frame as it is or adds a text to some rows of
    Error_Details. *)
Lemma apply_rule_cases (w w' : DataFrame) (rule : pyval) :
  apply_rule w rule = Ok w' ->
  w' = w \/ exists mask msg, w' = loc_iadd w mask msg.
Proof.
  unfold apply_rule. destruct rule; simpl; try discriminate.
  destruct (negb (truthy (field "column" entries))
            || negb (truthy (field "constraint" entries)))%bool eqn:T;
    unfold field in T; rewrite T.
  - intros H; injection H as <-. now left.
  - destruct (index_contains (names w) _) as [[|]|] eqn:I; simpl;
      try discriminate.
    + destruct (match lookup "column" entries with Some v => v | None => PNone end);
        try discriminate.
      destruct (getitem w s) as [col|]; try discriminate.
      destruct (py_eq_str _ "non-null").
      { intros H; injection H as <-. right; eauto. }
      destruct (py_eq_str _ "greater than" && is_numeric_dtype col)%bool.
      { destruct (py_float _); simpl; try discriminate.
        destruct (le_float col a); simpl; try discriminate.
        intros H; injection H as <-. right; eauto. }
      destruct (py_eq_str _ "allowed values" && is_list _)%bool.
      { destruct (match lookup "value" entries with Some v => v | None => PNone end);
          intros H; injection H as <-; auto. right; eauto. }
      intros H; injection H as <-. now left.
    + intros H; injection H as <-. right. unfold iadd. eauto.
Qed.

(** The frames the loop goes through are the data with some texts as
    Error_Details, and the texts only grow at their end. *)
Lemma apply_rule_with_diag (df w' : DataFrame) (d : list string) (rule : pyval) :
  apply_rule (with_diag df d) rule = Ok w' ->
  exists d', w' = with_diag df d' /\ appended d d'.
Proof.
  intros H. destruct (apply_rule_cases _ _ _ H) as [->|(mask & msg & ->)].
  - exists d. split; [reflexivity | apply appended_refl].
  - rewrite loc_iadd_with_diag. eexists. split; [reflexivity|].
    apply add_text_appended.
Qed.

Lemma run_rules_with_diag (rules : list pyval) (df w' : DataFrame) (d : list string) :
  run_rules (with_diag df d) rules = Ok w' ->
  exists d', w' = with_diag df d' /\ appended d d'.
Proof.
  revert d; induction rules as [|rule rules IH]; intros d; simpl.
  - intros H; injection H as <-. exists d. split; [reflexivity | apply appended_refl].
  - destruct (apply_rule (with_diag df d) rule) as [w1|] eqn:E; simpl;
      [|discriminate].
    destruct (apply_rule_with_diag _ _ _ _ E) as (d1 & -> & A1).
    intros H. destruct (IH d1 H) as (d' & -> & A2).
    exists d'. split; [reflexivity | eapply appended_trans; eauto].
Qed.

Lemma run_rules_app (before after : list pyval) (w : DataFrame) :
  run_rules w (before ++ after)%list
  = (w' <- run_rules w before ;; run_rules w' after).
Proof.
  revert w; induction before as [|rule before IH]; intros w; simpl;
    [reflexivity|].
  destruct (apply_rule w rule); simpl; [apply IH | reflexivity].
Qed.

Lemma apply_rule_dict_fields (w : DataFrame) (entries : list (string * pyval)) :
  apply_rule w (PDict entries)
  = (let column := field "column" entries in
     let constraint := field "constraint" entries in
     let value := field "value" entries in
     if (negb (truthy column) || negb (truthy constraint))%bool then Ok w
     else
       present <- index_contains (names w) column ;;
       if (present : bool) then
         match column with
         | PStr name =>
             match getitem w name with
             | Some col =>
                 if py_eq_str constraint "non-null" then
                   Ok (loc_iadd w (isnull col)
                         (py_str column ++ " is missing. Provide a valid value. "))
                 else if (py_eq_str constraint "greater than"
                          && is_numeric_dtype col)%bool then
                   bound <- py_float value ;;
                   mask <- le_float col bound ;;
                   Ok (loc_iadd w mask
                         (py_str column ++ " must be greater than "
                          ++ py_str value ++ ". "))
                 else if (py_eq_str constraint "allowed values"
                          && is_list value)%bool then
                   match value with
                   | PList allowed =>
                       Ok (loc_iadd w
                             (map (fun c => negb (isin c allowed)) (cells col))
                             (py_str column ++ " must be one of "
                              ++ py_str value ++ ". "))
                   | _ => Ok w
                   end
                 else Ok w
             | None => Raise KeyError
             end
         | _ => Raise KeyError
         end
       else Ok (iadd w (py_str column ++ " is missing in the dataset. "))).
Proof.
  reflexivity.
Qed.

Lemma truthy_name (name : string) : name <> "" -> truthy (PStr name) = true.
Proof.
  intros N. simpl. apply String.eqb_neq in N. now rewrite N.
Qed.

Lemma index_contains_present (w : DataFrame) (name : string) :
  In name (names w) -> index_contains (names w) (PStr name) = Ok true.
Proof.
  intros I. simpl. unfold names in *.
  now rewrite (proj2 (existsb_names_find name (columns w)) I).
Qed.

Lemma index_contains_absent (w : DataFrame) (name : string) :
  ~ In name (names w) -> index_contains (names w) (PStr name) = Ok false.
Proof.
  intros N. simpl. unfold names in *.
  destruct (existsb (String.eqb name) (map fst (columns w))) eqn:E;
    [|reflexivity].
  exfalso. apply N. now apply existsb_names_find.
Qed.

Lemma le_float_numeric (c : column) (bound : pyfloat) :
  is_numeric_dtype c = true ->
  le_float c bound = Ok (map (fun x => fle x bound) (numeric_values c)).
Proof.
  destruct c; simpl; try discriminate; intros _; [reflexivity|].
  now rewrite map_map.
Qed.

Lemma length_numeric_values (c : column) :
  is_numeric_dtype c = true -> List.length (numeric_values c) = col_length c.
Proof.
  destruct c; unfold col_length; simpl; try discriminate; intros _;
    now rewrite !length_map.
Qed.

(** A rule on a column the frame does not have adds its message to every
    row. *)
Lemma apply_rule_missing_column (w : DataFrame) entries (col : string) :
  field "column" entries = PStr col -> col <> "" ->
  truthy (field "constraint" entries) = true ->
  ~ In col (names w) ->
  apply_rule w (PDict entries)
  = Ok (iadd w (col ++ " is missing in the dataset. ")).
Proof.
  intros Hc Hn Hk Ha. rewrite apply_rule_dict_fields. cbv zeta.
  rewrite Hc, Hk, (truthy_name _ Hn), (index_contains_absent _ _ Ha).
  reflexivity.
Qed.

(** A greater-than rule on a numeric column adds its message to the rows
    whose number is at most the bound. *)
Lemma apply_rule_greater_than (df : DataFrame) (d : list string) entries
      (col : string) (c : column) (bound : pyfloat) :
  field "column" entries = PStr col -> col <> "" -> col <> Error_Details ->
  field "constraint" entries = PStr "greater than" ->
  getitem df col = Some c -> is_numeric_dtype c = true ->
  py_float (field "value" entries) = Ok bound ->
  apply_rule (with_diag df d) (PDict entries)
  = Ok (with_diag df
          (add_text (map (fun x => fle x bound) (numeric_values c))
             (col ++ " must be greater than "
              ++ py_str (field "value" entries) ++ ". ") d)).
Proof.
  intros Hc Hn He Hk Hg Hnum Hb. rewrite apply_rule_dict_fields. cbv zeta.
  rewrite Hc, Hk, (truthy_name _ Hn).
  rewrite index_contains_present.
  2:{ apply names_with_diag. left. apply (find_col_in_names _ c). exact Hg. }
  rewrite (getitem_with_diag_other _ _ _ He), Hg.
  cbn [truthy negb orb bind py_eq_str String.eqb Ascii.eqb Bool.eqb andb].
  rewrite Hnum, Hb. cbn [bind].
  rewrite (le_float_numeric _ _ Hnum). cbn [bind py_str].
  now rewrite loc_iadd_with_diag.
Qed.

(** A greater-than rule on a numeric column whose value has no float
    raises. *)
Lemma apply_rule_greater_than_raises (df : DataFrame) (d : list string) entries
      (col : string) (c : column) (e : exn) :
  field "column" entries = PStr col -> col <> "" -> col <> Error_Details ->
  field "constraint" entries = PStr "greater than" ->
  getitem df col = Some c -> is_numeric_dtype c = true ->
  py_float (field "value" entries) = Raise e ->
  apply_rule (with_diag df d) (PDict entries) = Raise e.
Proof.
  intros Hc Hn He Hk Hg Hnum Hb. rewrite apply_rule_dict_fields. cbv zeta.
  rewrite Hc, Hk, (truthy_name _ Hn).
  rewrite index_contains_present.
  2:{ apply names_with_diag. left. apply (find_col_in_names _ c). exact Hg. }
  rewrite (getitem_with_diag_other _ _ _ He), Hg.
  cbn [truthy negb orb bind py_eq_str String.eqb Ascii.eqb Bool.eqb andb].
  rewrite Hnum, Hb. reflexivity.
Qed.

(** A rule on a column the frame has, with a constraint that is none of
    the three the loop knows, changes nothing. *)
Lemma apply_rule_unknown_constraint (w : DataFrame) entries (col : string) (c : column) :
  field "column" entries = PStr col -> col <> "" ->
  truthy (field "constraint" entries) = true ->
  py_eq_str (field "constraint" entries) "non-null" = false ->
  py_eq_str (field "constraint" entries) "greater than" = false ->
  py_eq_str (field "constraint" entries) "allowed values" = false ->
  getitem w col = Some c ->
  apply_rule w (PDict entries) = Ok w.
Proof.
  intros Hc Hn Hk N1 N2 N3 Hg. rewrite apply_rule_dict_fields. cbv zeta.
  rewrite Hc, Hk, (truthy_name _ Hn), N1, N2, N3.
  rewrite index_contains_present by (apply (find_col_in_names _ c); exact Hg).
  rewrite Hg. reflexivity.
Qed.

(** An allowed-values rule whose value is not a list changes nothing. *)
Lemma apply_rule_allowed_not_list (w : DataFrame) entries (col : string) (c : column) :
  field "column" entries = PStr col -> col <> "" ->
  field "constraint" entries = PStr "allowed values" ->
  is_list (field "value" entries) = false ->
  getitem w col = Some c ->
  apply_rule w (PDict entries) = Ok w.
Proof.
  intros Hc Hn Hk Hl Hg. rewrite apply_rule_dict_fields. cbv zeta.
  rewrite Hc, Hk, (truthy_name _ Hn), Hl.
  rewrite index_contains_present by (apply (find_col_in_names _ c); exact Hg).
  rewrite Hg. reflexivity.
Qed.

Lemma appended_after_message (msg : string) (d1 d3 : list string) :
  appended (map (fun s => s ++ msg) d1) d3 ->
  Forall2 (fun d0 d => exists t, d = d0 ++ msg ++ t) d1 d3.
Proof.
  revert d3; induction d1 as [|s d1 IH]; intros d3 H; simpl in H;
    inversion H as [|? b ? d3' [t ->] H']; subst; constructor.
  - exists t. now rewrite app_assoc_s.
  - now apply IH.
Qed.

Lemma highlight_fresh (df : DataFrame) :
  highlight (add_error_details df) = repeat false (nrows df).
Proof.
  unfold highlight.
  rewrite add_error_details_with_diag, diagnostics_with_diag.
  now rewrite map_repeat.
Qed.

(* ================================================================== *)
(** * Properties of [validate_data] *)
(* ================================================================== *)

(** C2, as amended: when the rule text is not valid JSON, [validate_data]
    catches the decoding error and returns to its caller without raising;
    no rule is applied and no workbook is written. *)
Theorem validate_data_invalid_json (df : DataFrame) (txt : string) :
  json_loads txt = None -> validate_data df txt = Ok None.
Proof.
  intros H. unfold validate_data. now rewrite H.
Qed.

(** C5, as amended: on a dataset that has no column named Error_Details,
    the empty rule set gives the original columns, unchanged and in
    order, followed by an Error_Details column that is empty in every
    row; no row is highlighted. *)
Theorem validate_data_empty_rule_set (df : DataFrame) :
  json_loads "[]" = Some (PList []) ->
  ~ In Error_Details (names df) ->
  validate_data df "[]"
  = Ok (Some {| table :=
                  {| nrows := nrows df;
                     columns :=
                       (columns df
                        ++ [(Error_Details,
                             ObjCol (repeat (Some "") (nrows df)))])%list |};
                red_fill := repeat false (nrows df) |}).
Proof.
  intros H N. unfold validate_data. rewrite H. simpl. unfold workbook.
  rewrite highlight_fresh. unfold add_error_details, setitem.
  now rewrite (set_col_absent _ _ _ N).
Qed.

(** C10, as amended: on a dataset that has no column named
    Error_Details and a rule text that decodes to an array of objects,
    [validate_data] either raises, writing nothing, or writes a table
    made of the original columns, unchanged and in order, followed by
    the Error_Details column, with one text per row. *)
Theorem validate_data_keeps_columns (df : DataFrame) (txt : string)
        (rules : list pyval) :
  ~ In Error_Details (names df) ->
  json_loads txt = Some (PList rules) ->
  Forall (fun rule => is_dict rule = true) rules ->
  (exists e, validate_data df txt = Raise e)
  \/ (exists d,
        List.length d = nrows df /\
        validate_data df txt
        = Ok (Some (workbook
                      {| nrows := nrows df;
                         columns :=
                           (columns df
                            ++ [(Error_Details, ObjCol (map Some d))])%list |}))).
Proof.
  intros N H _. unfold validate_data. rewrite H. simpl.
  rewrite add_error_details_with_diag.
  destruct (run_rules (with_diag df (repeat "" (nrows df))) rules)
    as [w|e] eqn:R; simpl; [right | left; now exists e].
  destruct (run_rules_with_diag _ _ _ _ R) as (d & -> & A).
  exists d. split.
  - rewrite (appended_length _ _ A). apply repeat_length.
  - unfold with_diag, setitem. now rewrite (set_col_absent _ _ _ N).
Qed.

(** C6, as amended: a rule whose column and constraint are present and
    non-empty, and whose column name is neither a column of the dataset
    nor Error_Details, adds "<column> is missing in the dataset. " to the
    Error_Details text of every row, whatever its constraint: in the
    table of a run that completes, the text of each row is the text the
    earlier rules gave it, then the message, then what the later rules
    added. *)
Theorem missing_column_flags_every_row (df : DataFrame) (txt : string)
        (before after : list pyval) (entries : list (string * pyval))
        (col : string) (r : report) :
  json_loads txt = Some (PList (before ++ PDict entries :: after)%list) ->
  field "column" entries = PStr col -> col <> "" ->
  truthy (field "constraint" entries) = true ->
  ~ In col (names df) -> col <> Error_Details ->
  validate_data df txt = Ok (Some r) ->
  exists w,
    run_rules (add_error_details df) before = Ok w /\
    List.length (diagnostics (table r)) = nrows df /\
    Forall2 (fun d0 d =>
               exists t, d = d0 ++ (col ++ " is missing in the dataset. ") ++ t)
            (diagnostics w) (diagnostics (table r)).
Proof.
  intros H Hc Hn Hk Ha He. unfold validate_data. rewrite H. simpl.
  rewrite run_rules_app, add_error_details_with_diag.
  destruct (run_rules (with_diag df (repeat "" (nrows df))) before)
    as [w1|] eqn:R1; simpl; [|discriminate].
  destruct (run_rules_with_diag _ _ _ _ R1) as (d1 & -> & A1).
  assert (L1 : List.length d1 = nrows df)
    by (rewrite (appended_length _ _ A1); apply repeat_length).
  rewrite (apply_rule_missing_column _ _ col Hc Hn Hk).
  2:{ intros I. apply names_with_diag in I.
      destruct I as [I|I]; [exact (Ha I) | exact (He I)]. }
  rewrite (iadd_with_diag _ _ _ L1). simpl.
  destruct (run_rules _ after) as [w3|] eqn:R3; simpl; [|discriminate].
  destruct (run_rules_with_diag _ _ _ _ R3) as (d3 & -> & A3).
  intros E; injection E as <-. exists (with_diag df d1). simpl.
  rewrite !diagnostics_with_diag. repeat split.
  - rewrite (appended_length _ _ A3), length_map. exact L1.
  - now apply appended_after_message.
Qed.




(** A rule list whose first item is not an object stops the run with an
    AttributeError. *)
Lemma validate_data_first_item_not_dict (df : DataFrame) (txt : string)
      (v x : pyval) (rest : list pyval) :
  json_loads txt = Some v -> py_iter v = Ok (x :: rest) -> is_dict x = false ->
  validate_data df txt = Raise AttributeError.
Proof.
  intros H I D. unfold validate_data. rewrite H, I. simpl.
  destruct x; try discriminate; reflexivity.
Qed.

(** C8, as amended: a text that is valid JSON but no array of objects
    makes [validate_data] raise: whichever text decodes to the object
    {"a": 1} or to the array [1], the loop over the rules raises an
    AttributeError that nothing catches. *)
Theorem validate_data_non_object_rules (df : DataFrame) (txt : string) (v : pyval) :
  json_loads txt = Some v ->
  v = PDict [("a", PInt 1)] \/ v = PList [PInt 1] ->
  validate_data df txt = Raise AttributeError.
Proof.
  intros H [-> | ->];
    eapply validate_data_first_item_not_dict; eauto; reflexivity.
Qed.

(** A greater-than rule on a numeric column whose value has no float
    ends the run: the rules after it are not applied and nothing is
    written. *)
Lemma validate_data_bad_bound (df : DataFrame) (txt : string) entries
      (rest : list pyval) (col : string) (c : column) (e : exn) :
  json_loads txt = Some (PList (PDict entries :: rest)) ->
  field "column" entries = PStr col -> col <> "" -> col <> Error_Details ->
  field "constraint" entries = PStr "greater than" ->
  getitem df col = Some c -> is_numeric_dtype c = true ->
  py_float (field "value" entries) = Raise e ->
  validate_data df txt = Raise e.
Proof.
  intros H Hc Hn He Hk Hg Hnum Hb.
  unfold validate_data. rewrite H. cbn [py_iter bind run_rules].
  rewrite add_error_details_with_diag.
  now rewrite (apply_rule_greater_than_raises _ _ _ col c e Hc Hn He Hk Hg Hnum Hb).
Qed.

(* ================================================================== *)
(** * Properties of [extract_profile_rules] *)
(* ================================================================== *)

(** Any status other than 200 gives the empty list. *)
Lemma extract_profile_rules_not_200 (text model : string)
      (api_key : option string) (url : string) :
  (forall req, resp_status_code (requests_post req) <> 200%Z) ->
  extract_profile_rules text model api_key url = Ok "[]".
Proof.
  intros H. unfold extract_profile_rules.
  match goal with
  | |- context [Z.eqb (resp_status_code (requests_post ?r)) 200] =>
      destruct (Z.eqb_spec (resp_status_code (requests_post r)) 200) as [E|_];
      [destruct (H r E) | reflexivity]
  end.
Qed.

(** X22: a response whose body is not JSON gives "[]": the decoding
    error is caught. *)
Lemma extract_profile_rules_not_json (text model : string)
      (api_key : option string) (url : string) :
  (forall req, json_loads (resp_text (requests_post req)) = None) ->
  extract_profile_rules text model api_key url = Ok "[]".
Proof.
  intros H. unfold extract_profile_rules.
  match goal with
  | |- context [Z.eqb (resp_status_code (requests_post ?r)) 200] =>
      destruct (Z.eqb (resp_status_code (requests_post r)) 200);
      [rewrite (H r)|]; reflexivity
  end.
Qed.

(** A JSON object without choices, with an empty list of choices, with a
    first choice that is an object without message, or with a message
    that is an object without content, gives the empty list. *)
Lemma extract_profile_rules_missing_field (text model : string)
      (api_key : option string) (url : string) (body : list (string * pyval)) :
  (forall req, json_loads (resp_text (requests_post req)) = Some (PDict body)) ->
  lookup "choices" body = None
  \/ lookup "choices" body = Some (PList [])
  \/ (exists first rest,
        lookup "choices" body = Some (PList (PDict first :: rest)) /\
        (lookup "message" first = None
         \/ exists message,
              lookup "message" first = Some (PDict message) /\
              lookup "content" message = None)) ->
  extract_profile_rules text model api_key url = Ok "[]".
Proof.
  intros H C. unfold extract_profile_rules.
  match goal with
  | |- context [Z.eqb (resp_status_code (requests_post ?r)) 200] =>
      destruct (Z.eqb (resp_status_code (requests_post r)) 200);
      [rewrite (H r)|reflexivity]
  end.
  cbn [negb py_get bind].
  destruct C as [C | [C | (first & rest & C & M)]]; rewrite C;
    try reflexivity.
  cbn [truthy negb py_getitem0 bind py_in].
  destruct M as [M | (message & M & K)]; rewrite M; cbn [negb bind];
    [reflexivity|].
  cbn [py_getitem]. rewrite M. cbn [bind py_in]. now rewrite K.
Qed.

(* ================================================================== *)
(** * Further properties of [clean_json_response] *)
(* ================================================================== *)

(** X1: what [clean_json_response] returns is a piece of its input, in
    one block; it never makes up text. *)
Theorem clean_json_response_part_of_input (raw : string) :
  exists pre post, raw = pre ++ clean_json_response raw ++ post.
Proof.
  unfold clean_json_response.
  destruct (re_search_group fence_open fence_close raw) as [g|] eqn:F.
  - destruct (re_search_group_occurs _ _ _ _ F) as (pre & post & E).
    exists (pre ++ fence_open), (fence_close ++ post).
    now rewrite app_assoc_s.
  - destruct (re_search_group boxed_open boxed_close raw) as [g|] eqn:B.
    + destruct (re_search_group_occurs _ _ _ _ B) as (pre & post & E).
      exists (pre ++ boxed_open), (boxed_close ++ post).
      now rewrite app_assoc_s.
    + exists "", "". simpl. now rewrite app_nil_r_s.
Qed.

(** X2: without a json fence, the first boxed wrapper of a text whose
    content has no closing brace gives exactly that content. *)
Theorem clean_json_response_boxed_content (raw pre content post : string) :
  raw = pre ++ boxed_open ++ content ++ boxed_close ++ post ->
  (forall p m q, raw <> p ++ fence_open ++ m ++ fence_close ++ q) ->
  Str.first_at boxed_open raw pre ->
  (forall x y, content <> x ++ "}" ++ y) ->
  clean_json_response raw = content.
Proof.
  intros -> Nf Fb Nc. unfold clean_json_response.
  rewrite (re_search_group_none _ _ _ Nf), re_search_group_split.
  rewrite (split_first_first_at _ _ pre (content ++ boxed_close ++ post)
             eq_refl Fb).
  rewrite (split_first_first_at _ _ content post eq_refl); [reflexivity|].
  split; [now exists post|].
  intros before' [after' O].
  destruct (Nat.le_gt_cases (length content) (length before')) as [L|L];
    [exact L|exfalso].
  destruct (char_within_prefix content _ before' after' "}"%char O L) as [y Ey].
  exact (Nc before' y Ey).
Qed.

(* ================================================================== *)
(** * Properties of [extract_text_from_pdf] *)
(* ================================================================== *)

Lemma add_pages_texts (text : string) (texts : list string) :
  add_pages text (map Some texts)
  = Ok (text ++ fold_right (fun t acc => t ++ LF ++ acc) "" texts).
Proof.
  revert text; induction texts as [|t texts IH]; intros text; simpl.
  - now rewrite app_nil_r_s.
  - rewrite IH. now rewrite !app_assoc_s.
Qed.

Lemma add_pages_raises (text : string) (pages : list (option string)) :
  In None pages <-> add_pages text pages = Raise TypeError.
Proof.
  revert text; induction pages as [|[t|] pages IH]; intros text; simpl.
  - split; [intros [] | discriminate].
  - rewrite <- IH. split; [intros [H|H]; [discriminate | exact H] | now right].
  - split; [reflexivity | now left].
Qed.

Lemma add_pages_start (text : string) (pages : list (option string)) :
  add_pages text pages
  = (t <- add_pages "" pages ;; Ok (text ++ t)).
Proof.
  revert text; induction pages as [|[t|] pages IH]; intros text; simpl.
  - now rewrite app_nil_r_s.
  - rewrite (IH (text ++ t ++ LF)), (IH (t ++ LF)).
    destruct (add_pages "" pages); simpl; [|reflexivity].
    now rewrite !app_assoc_s.
  - reflexivity.
Qed.

Lemma add_pages_app (text : string) (front back : list (option string)) :
  add_pages text (front ++ back)%list
  = (a <- add_pages text front ;; add_pages a back).
Proof.
  revert text; induction front as [|[t|] front IH]; intros text; simpl;
    [reflexivity | apply IH | reflexivity].
Qed.

(** X3: the text of a PDF is the texts of its pages in order, each
    followed by a line feed; the call raises TypeError exactly when some
    page has no text. *)
Theorem extract_text_from_pdf_pages :
  (forall texts,
      extract_text_from_pdf (map Some texts)
      = Ok (fold_right (fun t acc => t ++ LF ++ acc) "" texts))
  /\ (forall pages,
         In None pages <-> extract_text_from_pdf pages = Raise TypeError).
Proof.
  split.
  - intros texts. unfold extract_text_from_pdf. now rewrite add_pages_texts.
  - intros pages. apply add_pages_raises.
Qed.

(** X4: the text of a PDF made of two runs of pages is the text of the
    first run followed by the text of the second; a page without text in
    the first run raises before the second is read. *)
Theorem extract_text_from_pdf_app (front back : list (option string)) :
  extract_text_from_pdf (front ++ back)%list
  = (a <- extract_text_from_pdf front ;;
     b <- extract_text_from_pdf back ;;
     Ok (a ++ b)).
Proof.
  unfold extract_text_from_pdf. rewrite add_pages_app.
  destruct (add_pages "" front) as [a|]; simpl; [|reflexivity].
  apply add_pages_start.
Qed.

(* ================================================================== *)
(** * Further properties of [extract_profile_rules] *)
(* ================================================================== *)

(** X5: whatever the response, a string that [extract_profile_rules]
    returns starts with an opening bracket once stripped. *)
Theorem extract_profile_rules_array_shaped (text model : string)
        (api_key : option string) (url s : string) :
  extract_profile_rules text model api_key url = Ok s ->
  Str.startswith "[" (strip s) = true.
Proof.
  unfold extract_profile_rules, bind.
  repeat match goal with
         | |- Ok _ = Ok _ -> _ =>
             let H := fresh in
             intros H; injection H as <-; try reflexivity; try assumption
         | |- Raise _ = Ok _ -> _ => discriminate
         | |- context [if ?b then _ else _] => destruct b eqn:?
         | |- context [match ?x with _ => _ end] => destruct x eqn:?
         end.
Qed.

(** X6: on a response with status 200 whose body is an object with a
    first choice, a message in it and a string as its content, the
    result is the cleaned content, as it is, when it starts with an
    opening bracket once stripped, and "[]" otherwise. *)
Theorem extract_profile_rules_content (text model : string)
        (api_key : option string) (url : string)
        (body first message : list (string * pyval)) (rest : list pyval)
        (s : string) :
  (forall req, resp_status_code (requests_post req) = 200%Z) ->
  (forall req, json_loads (resp_text (requests_post req)) = Some (PDict body)) ->
  lookup "choices" body = Some (PList (PDict first :: rest)) ->
  lookup "message" first = Some (PDict message) ->
  lookup "content" message = Some (PStr s) ->
  extract_profile_rules text model api_key url
  = Ok (if Str.startswith "[" (strip (clean_json_response s))
        then clean_json_response s
        else "[]").
Proof.
  intros St Js Hc Hm Hs. unfold extract_profile_rules.
  rewrite St, Js. cbn [Z.eqb Pos.eqb negb py_get bind]. rewrite Hc.
  cbn [truthy negb py_getitem0 bind py_in py_getitem]. rewrite Hm.
  cbn [negb bind py_in py_getitem]. rewrite Hs. cbn [negb bind].
  now destruct (Str.startswith "[" (strip (clean_json_response s))).
Qed.

(* ================================================================== *)
(** * Further properties of [validate_data] *)
(* ================================================================== *)

Lemma apply_rule_incomplete (w : DataFrame) (entries : list (string * pyval)) :
  truthy (field "column" entries) = false
  \/ truthy (field "constraint" entries) = false ->
  apply_rule w (PDict entries) = Ok w.
Proof.
  intros H. rewrite apply_rule_dict_fields. cbv zeta.
  destruct H as [H|H]; rewrite H; [reflexivity|].
  now rewrite orb_true_r.
Qed.

Lemma apply_rule_not_numeric (w : DataFrame) entries (col : string) (c : column) :
  field "column" entries = PStr col -> col <> "" ->
  field "constraint" entries = PStr "greater than" ->
  getitem w col = Some c -> is_numeric_dtype c = false ->
  apply_rule w (PDict entries) = Ok w.
Proof.
  intros Hc Hn Hk Hg Hnum. rewrite apply_rule_dict_fields. cbv zeta.
  rewrite Hc, Hk, (truthy_name _ Hn).
  rewrite index_contains_present by (apply (find_col_in_names _ c); exact Hg).
  rewrite Hg, Hnum. reflexivity.
Qed.

Lemma apply_rule_non_null (df : DataFrame) (d : list string) entries
      (col : string) (c : column) :
  field "column" entries = PStr col -> col <> "" -> col <> Error_Details ->
  field "constraint" entries = PStr "non-null" ->
  getitem df col = Some c ->
  apply_rule (with_diag df d) (PDict entries)
  = Ok (with_diag df
          (add_text (isnull c)
             (col ++ " is missing. Provide a valid value. ") d)).
Proof.
  intros Hc Hn He Hk Hg. rewrite apply_rule_dict_fields. cbv zeta.
  rewrite Hc, Hk, (truthy_name _ Hn).
  rewrite index_contains_present.
  2:{ apply names_with_diag. left. apply (find_col_in_names _ c). exact Hg. }
  rewrite (getitem_with_diag_other _ _ _ He), Hg.
  cbn [truthy negb orb bind py_eq_str String.eqb Ascii.eqb Bool.eqb py_str].
  now rewrite loc_iadd_with_diag.
Qed.

Lemma apply_rule_allowed_values (df : DataFrame) (d : list string) entries
      (col : string) (c : column) (allowed : list pyval) :
  field "column" entries = PStr col -> col <> "" -> col <> Error_Details ->
  field "constraint" entries = PStr "allowed values" ->
  field "value" entries = PList allowed ->
  getitem df col = Some c ->
  apply_rule (with_diag df d) (PDict entries)
  = Ok (with_diag df
          (add_text (map (fun x => negb (isin x allowed)) (cells c))
             (col ++ " must be one of " ++ py_repr (PList allowed) ++ ". ") d)).
Proof.
  intros Hc Hn He Hk Hv Hg. rewrite apply_rule_dict_fields. cbv zeta.
  rewrite Hc, Hk, Hv, (truthy_name _ Hn).
  rewrite index_contains_present.
  2:{ apply names_with_diag. left. apply (find_col_in_names _ c). exact Hg. }
  rewrite (getitem_with_diag_other _ _ _ He), Hg.
  cbn [truthy negb orb bind py_eq_str String.eqb Ascii.eqb Bool.eqb py_str
       is_list andb].
  now rewrite loc_iadd_with_diag.
Qed.

Lemma add_text_fresh_mask (mask : list bool) (msg : string) :
  add_text mask msg (repeat "" (List.length mask))
  = map (fun flagged : bool => if flagged then msg else "") mask.
Proof.
  induction mask as [|b mask IH]; simpl; [reflexivity | now rewrite IH].
Qed.

Lemma add_text_again {A : Type} (f : A -> bool) (vals : list A) (m msg : string) :
  add_text (map f vals) msg (map (fun x => if f x then m else "") vals)
  = map (fun x => if f x then m ++ msg else "") vals.
Proof.
  induction vals as [|x vals IH]; simpl; [reflexivity|].
  rewrite IH. now destruct (f x).
Qed.

Lemma length_isnull (c : column) : List.length (isnull c) = col_length c.
Proof.
  destruct c; unfold col_length; simpl; now rewrite !length_map.
Qed.

Lemma names_set_col_present (name : string) (c : column)
      (cols : list (string * column)) :
  In name (map fst cols) -> map fst (set_col name c cols) = map fst cols.
Proof.
  induction cols as [|[n c'] cols IH]; simpl; [intros []|].
  destruct (String.eqb_spec name n) as [->|N]; simpl; [reflexivity|].
  intros [E|I]; [congruence|]. now rewrite IH.
Qed.

(** A run that writes a workbook writes the data with one text per row as
    Error_Details. *)
Lemma validate_data_written (df : DataFrame) (txt : string) (r : report) :
  validate_data df txt = Ok (Some r) ->
  exists d, r = workbook (with_diag df d) /\ List.length d = nrows df.
Proof.
  unfold validate_data. destruct (json_loads txt) as [v|]; [|discriminate].
  rewrite add_error_details_with_diag.
  destruct (py_iter v) as [items|]; simpl; [|discriminate].
  destruct (run_rules _ items) as [w|] eqn:R; simpl; [|discriminate].
  destruct (run_rules_with_diag _ _ _ _ R) as (d & -> & A).
  intros H; injection H as <-. exists d. split; [reflexivity|].
  rewrite (appended_length _ _ A). apply repeat_length.
Qed.

(** A rule that leaves every frame of the loop as it is can be taken out
    of the rule set. *)
Lemma validate_data_drop_rule (df : DataFrame) (t1 t2 : string)
      (before after : list pyval) (rule : pyval) :
  (forall d, apply_rule (with_diag df d) rule = Ok (with_diag df d)) ->
  json_loads t1 = Some (PList (before ++ rule :: after)%list) ->
  json_loads t2 = Some (PList (before ++ after)%list) ->
  validate_data df t1 = validate_data df t2.
Proof.
  intros S H1 H2. unfold validate_data. rewrite H1, H2. cbn [py_iter bind].
  rewrite !run_rules_app, add_error_details_with_diag.
  destruct (run_rules _ before) as [w|] eqn:R; simpl; [|reflexivity].
  destruct (run_rules_with_diag _ _ _ _ R) as (d & -> & _). now rewrite S.
Qed.

(** X7: a rule whose column or constraint is absent, null or otherwise
    false (an empty string, zero, an empty list) is skipped: the run is
    the run of the rule set without it. *)
Theorem validate_data_skips_incomplete_rule (df : DataFrame) (t1 t2 : string)
        (before after : list pyval) (entries : list (string * pyval)) :
  json_loads t1 = Some (PList (before ++ PDict entries :: after)%list) ->
  json_loads t2 = Some (PList (before ++ after)%list) ->
  truthy (field "column" entries) = false
  \/ truthy (field "constraint" entries) = false ->
  validate_data df t1 = validate_data df t2.
Proof.
  intros H1 H2 F. apply (validate_data_drop_rule df t1 t2 before after
                           (PDict entries)); try assumption.
  intros d. now apply apply_rule_incomplete.
Qed.

(** X8: a rule on a column of the dataset, other than Error_Details, is
    skipped, the run being the run of the rule set without it, when its
    constraint is none of "non-null", "greater than" and
    "allowed values", when it is "greater than" and the column is not
    numeric, and when it is "allowed values" and the value is not a
    list. *)
Theorem validate_data_skips_inapplicable_rule (df : DataFrame) (t1 t2 : string)
        (before after : list pyval) (entries : list (string * pyval))
        (col : string) (c : column) :
  json_loads t1 = Some (PList (before ++ PDict entries :: after)%list) ->
  json_loads t2 = Some (PList (before ++ after)%list) ->
  field "column" entries = PStr col -> col <> "" -> col <> Error_Details ->
  getitem df col = Some c ->
  (truthy (field "constraint" entries) = true
   /\ py_eq_str (field "constraint" entries) "non-null" = false
   /\ py_eq_str (field "constraint" entries) "greater than" = false
   /\ py_eq_str (field "constraint" entries) "allowed values" = false)
  \/ (field "constraint" entries = PStr "greater than"
      /\ is_numeric_dtype c = false)
  \/ (field "constraint" entries = PStr "allowed values"
      /\ is_list (field "value" entries) = false) ->
  validate_data df t1 = validate_data df t2.
Proof.
  intros H1 H2 Hc Hn He Hg Cases.
  apply (validate_data_drop_rule df t1 t2 before after (PDict entries));
    try assumption.
  intros d.
  assert (G : getitem (with_diag df d) col = Some c)
    by now rewrite getitem_with_diag_other.
  destruct Cases as [(T & N1 & N2 & N3) | [(K & Nn) | (K & Nl)]].
  - now apply (apply_rule_unknown_constraint _ _ col c).
  - now apply (apply_rule_not_numeric _ _ col c).
  - now apply (apply_rule_allowed_not_list _ _ col c).
Qed.

(** X9: a single "non-null" rule on a column of the dataset other than
    Error_Details flags exactly the rows where the column has no value:
    their text is "<column> is missing. Provide a valid value. " and the
    text of the other rows is empty. *)
Theorem validate_data_non_null (df : DataFrame) (txt : string)
        (entries : list (string * pyval)) (col : string) (c : column) :
  json_loads txt = Some (PList [PDict entries]) ->
  field "column" entries = PStr col -> col <> "" -> col <> Error_Details ->
  field "constraint" entries = PStr "non-null" ->
  getitem df col = Some c -> col_length c = nrows df ->
  validate_data df txt
  = Ok (Some (workbook
                (with_diag df
                   (map (fun null : bool =>
                           if null
                           then col ++ " is missing. Provide a valid value. "
                           else "")
                        (isnull c))))).
Proof.
  intros H Hc Hn He Hk Hg Hl.
  unfold validate_data. rewrite H. cbn [py_iter bind run_rules].
  rewrite add_error_details_with_diag.
  rewrite (apply_rule_non_null _ _ _ col c Hc Hn He Hk Hg). cbn [bind].
  rewrite <- Hl, <- length_isnull. now rewrite add_text_fresh_mask.
Qed.

(** X10: a single "allowed values" rule with a list as its value, on a
    column of the dataset other than Error_Details, flags exactly the
    rows that [isin] does not select: their text is
    "<column> must be one of <list>. " and the text of the other rows is
    empty. *)
Theorem validate_data_allowed_values (df : DataFrame) (txt : string)
        (entries : list (string * pyval)) (col : string) (c : column)
        (allowed : list pyval) :
  json_loads txt = Some (PList [PDict entries]) ->
  field "column" entries = PStr col -> col <> "" -> col <> Error_Details ->
  field "constraint" entries = PStr "allowed values" ->
  field "value" entries = PList allowed ->
  getitem df col = Some c -> col_length c = nrows df ->
  validate_data df txt
  = Ok (Some (workbook
                (with_diag df
                   (map (fun x =>
                           if isin x allowed then ""
                           else col ++ " must be one of "
                                ++ py_repr (PList allowed) ++ ". ")
                        (cells c))))).
Proof.
  intros H Hc Hn He Hk Hv Hg Hl.
  unfold validate_data. rewrite H. cbn [py_iter bind run_rules].
  rewrite add_error_details_with_diag.
  rewrite (apply_rule_allowed_values _ _ _ col c allowed Hc Hn He Hk Hv Hg).
  cbn [bind]. rewrite <- Hl. unfold col_length. rewrite add_text_fresh.
  do 4 f_equal. apply map_ext. intros x. now destruct (isin x allowed).
Qed.

(** X11: rules added at the end of a rule set only add text at the end:
    when the longer rule set runs to its workbook, so does the shorter
    one, and the text of each row of the longer run starts with the text
    of that row in the shorter run. *)
Theorem validate_data_more_rules_append (df : DataFrame) (t1 t12 : string)
        (rules1 rules2 : list pyval) (r12 : report) :
  json_loads t1 = Some (PList rules1) ->
  json_loads t12 = Some (PList (rules1 ++ rules2)%list) ->
  validate_data df t12 = Ok (Some r12) ->
  exists r1,
    validate_data df t1 = Ok (Some r1)
    /\ appended (diagnostics (table r1)) (diagnostics (table r12)).
Proof.
  intros H1 H12. unfold validate_data. rewrite H1, H12. cbn [py_iter bind].
  rewrite run_rules_app, add_error_details_with_diag.
  destruct (run_rules _ rules1) as [w1|] eqn:R1; simpl; [|discriminate].
  destruct (run_rules_with_diag _ _ _ _ R1) as (d1 & -> & _).
  destruct (run_rules _ rules2) as [w2|] eqn:R2; simpl; [|discriminate].
  destruct (run_rules_with_diag _ _ _ _ R2) as (d2 & -> & A).
  intros E; injection E as <-. eexists. split; [reflexivity|]. simpl.
  now rewrite !diagnostics_with_diag.
Qed.

(** X13: for every dataset and every rule text, a workbook that is
    written has the rows of the dataset, every column other than
    Error_Details with the values it had, the column names of the
    dataset in their order, with Error_Details added last when the
    dataset did not have it, and one Error_Details text per row. *)
Theorem validate_data_other_columns (df : DataFrame) (txt : string) (r : report) :
  validate_data df txt = Ok (Some r) ->
  nrows (table r) = nrows df
  /\ (forall name, name <> Error_Details ->
                   getitem (table r) name = getitem df name)
  /\ (In Error_Details (names df) -> names (table r) = names df)
  /\ (~ In Error_Details (names df) ->
      names (table r) = (names df ++ [Error_Details])%list)
  /\ List.length (diagnostics (table r)) = nrows df.
Proof.
  intros H. destruct (validate_data_written _ _ _ H) as (d & -> & L).
  simpl. repeat split.
  - intros name N. now apply getitem_with_diag_other.
  - intros I. unfold names, with_diag, setitem; simpl.
    now apply names_set_col_present.
  - intros N. unfold names, with_diag, setitem; simpl.
    rewrite (set_col_absent _ _ _ N). now rewrite map_app.
  - now rewrite diagnostics_with_diag.
Qed.

(** X14: in a workbook that is written there is one fill flag per row of
    the dataset, and a row has the red fill exactly when its
    Error_Details text is not empty. *)
Theorem validate_data_red_fill (df : DataFrame) (txt : string) (r : report) :
  validate_data df txt = Ok (Some r) ->
  List.length (red_fill r) = nrows df
  /\ Forall2 (fun (red : bool) (text : string) => red = true <-> text <> "")
             (red_fill r) (diagnostics (table r)).
Proof.
  intros H. destruct (validate_data_written _ _ _ H) as (d & -> & L).
  simpl. unfold highlight. rewrite diagnostics_with_diag. split.
  - now rewrite length_map.
  - clear. induction d as [|s d IH]; simpl; constructor; [|exact IH].
    destruct (String.eqb_spec s ""); simpl; split; congruence.
Qed.

(** X15: a rule text that decodes to an empty array, an empty object or
    an empty string runs like the empty rule set, on every dataset: the
    workbook has an empty Error_Details text in every row. *)
Theorem validate_data_empty_container (df : DataFrame) (txt : string) (v : pyval) :
  json_loads txt = Some v ->
  v = PList [] \/ v = PDict [] \/ v = PStr "" ->
  validate_data df txt
  = Ok (Some (workbook (with_diag df (repeat "" (nrows df))))).
Proof.
  intros H [-> | [-> | ->]]; unfold validate_data; rewrite H; simpl;
    now rewrite add_error_details_with_diag.
Qed.

(** X16: a rule text that decodes to null, a boolean or a number makes
    the loop raise TypeError: nothing is written. *)
Theorem validate_data_not_iterable (df : DataFrame) (txt : string) (v : pyval) :
  json_loads txt = Some v ->
  match v with
  | PNone | PBool _ | PInt _ | PFloat _ => True
  | _ => False
  end ->
  validate_data df txt = Raise TypeError.
Proof.
  intros H V. unfold validate_data. rewrite H.
  destruct v; try destruct V; reflexivity.
Qed.

(** X17: a first rule with a constraint and a non-empty list or object
    as its column raises TypeError at the test of the column against
    the labels of the frame, which hashes it. *)
Theorem validate_data_unhashable_column (df : DataFrame) (txt : string)
        (entries : list (string * pyval)) (rest : list pyval) :
  json_loads txt = Some (PList (PDict entries :: rest)) ->
  truthy (field "column" entries) = true ->
  truthy (field "constraint" entries) = true ->
  match field "column" entries with
  | PList _ | PDict _ => True
  | _ => False
  end ->
  validate_data df txt = Raise TypeError.
Proof.
  intros H Tc Tk V. unfold validate_data. rewrite H.
  cbn [py_iter bind run_rules]. rewrite apply_rule_dict_fields. cbv zeta.
  rewrite Tc, Tk.
  destruct (field "column" entries); try destruct V; reflexivity.
Qed.

(** X18: a single rule with a constraint and a number or true as its
    column is handled as a rule on a missing column: every row gets
    "<column> is missing in the dataset. ", the column printed as
    Python prints it. *)
Theorem validate_data_number_as_column (df : DataFrame) (txt : string)
        (entries : list (string * pyval)) :
  json_loads txt = Some (PList [PDict entries]) ->
  truthy (field "column" entries) = true ->
  truthy (field "constraint" entries) = true ->
  match field "column" entries with
  | PBool _ | PInt _ | PFloat _ => True
  | _ => False
  end ->
  validate_data df txt
  = Ok (Some (workbook
                (with_diag df
                   (repeat (py_str (field "column" entries)
                            ++ " is missing in the dataset. ")
                           (nrows df))))).
Proof.
  intros H Tc Tk V. unfold validate_data. rewrite H.
  cbn [py_iter bind run_rules]. rewrite apply_rule_dict_fields. cbv zeta.
  rewrite Tc, Tk, add_error_details_with_diag.
  assert (I : index_contains (names (with_diag df (repeat "" (nrows df))))
                (field "column" entries) = Ok false)
    by (destruct (field "column" entries); try destruct V; reflexivity).
  rewrite I. cbn [negb orb bind].
  rewrite iadd_with_diag by apply repeat_length.
  now rewrite map_repeat.
Qed.

(** X19: nothing removes a repeated message: the same "greater than"
    rule twice in a rule set writes its message twice in the rows it
    flags, those whose number is, as a binary64 value, at most the
    float of the value: such is the workbook of a run that writes
    one. *)
Theorem validate_data_rule_twice (df : DataFrame) (txt : string)
        (entries : list (string * pyval)) (col : string) (c : column)
        (bound : pyfloat) (r : report) :
  json_loads txt = Some (PList [PDict entries; PDict entries]) ->
  field "column" entries = PStr col -> col <> "" -> col <> Error_Details ->
  field "constraint" entries = PStr "greater than" ->
  getitem df col = Some c -> is_numeric_dtype c = true ->
  col_length c = nrows df ->
  py_float (field "value" entries) = Ok bound ->
  validate_data df txt = Ok (Some r) ->
  r = workbook
        (with_diag df
           (map (fun x =>
                   if fle x bound
                   then (col ++ " must be greater than "
                         ++ py_str (field "value" entries) ++ ". ")
                        ++ (col ++ " must be greater than "
                            ++ py_str (field "value" entries) ++ ". ")
                   else "")
                (numeric_values c))).
Proof.
  intros H Hc Hn He Hk Hg Hnum Hl Hb.
  unfold validate_data. rewrite H. cbn [py_iter bind run_rules].
  rewrite add_error_details_with_diag.
  rewrite (apply_rule_greater_than _ _ _ col c bound Hc Hn He Hk Hg Hnum Hb).
  cbn [bind].
  rewrite (apply_rule_greater_than _ _ _ col c bound Hc Hn He Hk Hg Hnum Hb).
  cbn [bind]. rewrite <- Hl, <- (length_numeric_values _ Hnum).
  rewrite add_text_fresh, add_text_again.
  intros W. now injection W as <-.
Qed.

(* ================================================================== *)
(** * Properties of the script *)
(* ================================================================== *)

Lemma add_pages_ok (text : string) (pages : list (option string)) :
  ~ In None pages -> exists t, add_pages text pages = Ok t.
Proof.
  revert text; induction pages as [|[t|] pages IH]; intros text N; simpl.
  - now exists text.
  - apply IH. intros I. apply N. now right.
  - exfalso. apply N. now left.
Qed.

(** X20: the script fails open on the transport: when every page of the
    PDF has text and the server answers with a status other than 200,
    the run completes and writes the dataset with an empty Error_Details
    text in every row. *)
Theorem main_fails_open (pages : list (option string)) (api_key : string)
        (df : DataFrame) :
  ~ In None pages ->
  (forall req, resp_status_code (requests_post req) <> 200%Z) ->
  json_loads "[]" = Some (PList []) ->
  main pages api_key df
  = Ok (Some (workbook (with_diag df (repeat "" (nrows df))))).
Proof.
  intros Np St J. unfold main, extract_text_from_pdf.
  destruct (add_pages_ok "" pages Np) as [t ->]. cbn [bind].
  rewrite (extract_profile_rules_not_200 _ _ _ _ St). cbn [bind].
  unfold validate_data. rewrite J. simpl.
  now rewrite add_error_details_with_diag.
Qed.

(** X21: the script is silent on rules it cannot decode: when the
    answer of the server carries a content that starts with an opening
    bracket once cleaned and stripped but is not JSON, the run returns
    without an exception and without a workbook. *)
Theorem main_silent_on_undecodable_rules (pages : list (option string))
        (api_key : string) (df : DataFrame)
        (body first message : list (string * pyval)) (rest : list pyval)
        (s : string) :
  ~ In None pages ->
  (forall req, resp_status_code (requests_post req) = 200%Z) ->
  (forall req, json_loads (resp_text (requests_post req)) = Some (PDict body)) ->
  lookup "choices" body = Some (PList (PDict first :: rest)) ->
  lookup "message" first = Some (PDict message) ->
  lookup "content" message = Some (PStr s) ->
  Str.startswith "[" (strip (clean_json_response s)) = true ->
  json_loads (clean_json_response s) = None ->
  main pages api_key df = Ok None.
Proof.
  intros Np St Js Hc Hm Hs Hb Hj. unfold main, extract_text_from_pdf.
  destruct (add_pages_ok "" pages Np) as [t ->]. cbn [bind].
  unfold extract_profile_rules.
  rewrite St, Js. cbn [Z.eqb Pos.eqb negb py_get bind]. rewrite Hc.
  cbn [truthy negb py_getitem0 bind py_in py_getitem]. rewrite Hm.
  cbn [negb bind py_in py_getitem]. rewrite Hs. cbn [negb bind].
  rewrite Hb. cbn [bind]. unfold validate_data. now rewrite Hj.
Qed.

End Pipeline.

(* ================================================================== *)
(** * The properties on concrete runs *)
(* ================================================================== *)

(** A search that finds nothing shows that the two literals do not occur
    one after the other. *)
Lemma no_match_by_search (opening closing s : string) :
  re_search_group opening closing s = None ->
  forall pre mid post, s <> pre ++ opening ++ mid ++ closing ++ post.
Proof.
  intros N pre mid post E.
  destruct (re_search_group_some opening closing s pre mid post E)
    as (_ & g & _ & _ & _ & _ & R).
  congruence.
Qed.

Lemma no_occurrence_by_search (pat s : string) :
  Str.split_first pat s = None -> forall x y, s <> x ++ pat ++ y.
Proof.
  exact (split_first_none pat s).
Qed.

Lemma first_at_start (pat rest : string) : Str.first_at pat (pat ++ rest) "".
Proof.
  split; [now exists rest | intros; simpl; lia].
Qed.

Lemma amounts_has_no_error_details : ~ In Error_Details (names amounts).
Proof.
  simpl. intros [H|[]]. discriminate.
Qed.

(** The fenced text gives the inside of its fence and a text without
    markers is returned as it is. *)
Lemma clean_json_response_fence_or_identity_witness :
  (exists pre' body post',
     fenced_text = pre' ++ fence_open ++ body ++ fence_close ++ post' /\
     Str.first_at fence_open fenced_text pre' /\
     Str.first_at fence_close (body ++ fence_close ++ post') body /\
     clean_json_response fenced_text = body)
  /\ clean_json_response fenced_text = "[1]"
  /\ clean_json_response "[]" = "[]".
Proof.
  split; [|split].
  - apply (proj1 (clean_json_response_fence_or_identity fenced_text)
             "Here: " "[1]" " done").
    reflexivity.
  - reflexivity.
  - apply (proj2 (clean_json_response_fence_or_identity "[]"));
      apply no_match_by_search; reflexivity.
Defined.

(** The boxed text is cut at the first closing brace of its content. *)
Lemma clean_json_response_boxed_truncates_witness :
  clean_json_response boxed_text = "[{" ++ dq ++ "a" ++ dq ++ ":1"
  /\ "[{" ++ dq ++ "a" ++ dq ++ ":1" <> "[{" ++ dq ++ "a" ++ dq ++ ":1}]".
Proof.
  apply (clean_json_response_boxed_truncates boxed_text
           "" ("[{" ++ dq ++ "a" ++ dq ++ ":1}]") ""
           ("[{" ++ dq ++ "a" ++ dq ++ ":1") "]").
  - reflexivity.
  - apply no_match_by_search. reflexivity.
  - apply (first_at_start boxed_open).
  - reflexivity.
  - apply no_occurrence_by_search. reflexivity.
Defined.

(** A text that is not JSON: the call returns, nothing is written. *)
Lemma validate_data_invalid_json_witness :
  Json.loads "not json" = None
  /\ validate_data Json.loads Sample.repr Sample.str_to_float Sample.isin
       amounts "not json" = Ok None.
Proof.
  split; [reflexivity|].
  apply validate_data_invalid_json. reflexivity.
Defined.

(** C2 fails as stated: on the text "not json" no exception reaches the
    caller. *)
Lemma validate_data_invalid_json_does_not_raise :
  Json.loads "not json" = None
  /\ ~ (exists e,
          validate_data Json.loads Sample.repr Sample.str_to_float Sample.isin
            amounts "not json" = Raise e).
Proof.
  split; [reflexivity|].
  intros [e H]. vm_compute in H. discriminate.
Qed.

(** The empty rule set on the Amount rows. *)
Lemma validate_data_empty_rule_set_witness :
  Json.loads "[]" = Some (PList [])
  /\ ~ In Error_Details (names amounts)
  /\ validate_data Json.loads Sample.repr Sample.str_to_float Sample.isin
       amounts "[]"
     = Ok (Some {| table :=
                     {| nrows := 2;
                        columns := [("Amount", NumCol [FNum (-5); FNum 10]);
                                    (Error_Details, ObjCol [Some ""; Some ""])] |};
                   red_fill := [false; false] |}).
Proof.
  split; [reflexivity|]. split; [exact amounts_has_no_error_details|].
  apply (validate_data_empty_rule_set Json.loads Sample.repr Sample.str_to_float
           Sample.isin amounts).
  - reflexivity.
  - exact amounts_has_no_error_details.
Defined.

(** C5 fails as stated: when the dataset already has an Error_Details
    column, the empty rule set overwrites that column where it stands;
    its value "old" is lost and no column is added at the end. *)
Lemma validate_data_empty_rule_set_overwrites :
  validate_data Json.loads Sample.repr Sample.str_to_float Sample.isin
    annotated "[]"
  = Ok (Some (workbook
                {| nrows := 1;
                   columns := [("Error_Details", ObjCol [Some ""]);
                               ("Amount", NumCol [FNum 1])] |}))
  /\ ~ (exists r c,
          validate_data Json.loads Sample.repr Sample.str_to_float Sample.isin
            annotated "[]" = Ok (Some r)
          /\ columns (table r)
             = (columns annotated ++ [(Error_Details, c)])%list).
Proof.
  split; [reflexivity|].
  intros (r & c & H & E). vm_compute in H. injection H as <-.
  vm_compute in E. discriminate.
Qed.

(** The columns of the Amount rows after a greater-than rule. *)
Lemma validate_data_keeps_columns_witness :
  (exists e,
     validate_data Json.loads Sample.repr Sample.str_to_float Sample.isin
       amounts (rule_text "Amount" "greater than" "0") = Raise e)
  \/ (exists d,
        List.length d = nrows amounts /\
        validate_data Json.loads Sample.repr Sample.str_to_float Sample.isin
          amounts (rule_text "Amount" "greater than" "0")
        = Ok (Some (workbook
                      {| nrows := nrows amounts;
                         columns :=
                           (columns amounts
                            ++ [(Error_Details, ObjCol (map Some d))])%list |}))).
Proof.
  apply (validate_data_keeps_columns Json.loads Sample.repr Sample.str_to_float
           Sample.isin amounts (rule_text "Amount" "greater than" "0")
           [PDict (rule_entries "Amount" "greater than" (PInt 0))]).
  - exact amounts_has_no_error_details.
  - reflexivity.
  - repeat constructor.
Defined.

(** C10 fails as stated: the value "old" of the column Error_Details of
    the dataset is not the value of that column in the table written. *)
Lemma validate_data_changes_error_details :
  ~ (forall r,
       validate_data Json.loads Sample.repr Sample.str_to_float Sample.isin
         annotated "[]" = Ok (Some r) ->
       forall name c,
         getitem annotated name = Some c -> getitem (table r) name = Some c).
Proof.
  intros H.
  specialize (H (workbook
                   {| nrows := 1;
                      columns := [("Error_Details", ObjCol [Some ""]);
                                  ("Amount", NumCol [FNum 1])] |})
                eq_refl "Error_Details" (ObjCol [Some "old"]) eq_refl).
  vm_compute in H. discriminate.
Qed.

(** A rule on the column Balance, which the Amount rows do not have. *)
Lemma missing_column_flags_every_row_witness :
  exists w,
    run_rules Sample.repr Sample.str_to_float Sample.isin
      (add_error_details amounts) [] = Ok w /\
    List.length
      (diagnostics
         (table (workbook
                   (with_diag amounts
                      ["Balance is missing in the dataset. ";
                       "Balance is missing in the dataset. "])))) = nrows amounts /\
    Forall2 (fun d0 d =>
               exists t, d = d0 ++ ("Balance" ++ " is missing in the dataset. ") ++ t)
            (diagnostics w)
            (diagnostics
               (table (workbook
                         (with_diag amounts
                            ["Balance is missing in the dataset. ";
                             "Balance is missing in the dataset. "])))).
Proof.
  apply (missing_column_flags_every_row Json.loads Sample.repr
           Sample.str_to_float Sample.isin amounts
           (rule_text "Balance" "no such constraint" "0") [] []
           (rule_entries "Balance" "no such constraint" (PInt 0)) "Balance").
  - reflexivity.
  - reflexivity.
  - discriminate.
  - reflexivity.
  - simpl. intros [H|[]]. discriminate.
  - discriminate.
  - reflexivity.
Defined.

(** C6 fails as stated: Error_Details is not a column of the dataset,
    yet a rule on it adds no message: the loop finds the column it has
    just created. *)
Lemma missing_column_not_flagged_for_error_details :
  ~ In "Error_Details" (names amounts)
  /\ Json.loads (rule_text "Error_Details" "non-null" "0")
     = Some (PList [PDict (rule_entries "Error_Details" "non-null" (PInt 0))])
  /\ validate_data Json.loads Sample.repr Sample.str_to_float Sample.isin
       amounts (rule_text "Error_Details" "non-null" "0")
     = Ok (Some (workbook (with_diag amounts [""; ""]))).
Proof.
  split; [exact amounts_has_no_error_details|]. split; reflexivity.
Qed.



(** A numeric column of the file that is named Error_Details is replaced
    by the empty texts before the rules run, so a "greater than" rule on
    it finds no numeric column and flags nothing. *)
Lemma greater_than_on_error_details_flags_nothing :
  validate_data Json.loads Sample.repr Sample.str_to_float Sample.isin
    {| nrows := 1; columns := [("Error_Details", NumCol [FNum (-5)])] |}
    (rule_text "Error_Details" "greater than" "0")
  = Ok (Some (workbook
                {| nrows := 1;
                   columns := [("Error_Details", ObjCol [Some ""])] |})).
Proof.
  reflexivity.
Qed.

(** The object and the array of the claim, decoded and validated. *)
Lemma validate_data_non_object_rules_witness :
  Json.loads object_text = Some (PDict [("a", PInt 1)])
  /\ validate_data Json.loads Sample.repr Sample.str_to_float Sample.isin
       amounts object_text = Raise AttributeError
  /\ Json.loads array_text = Some (PList [PInt 1])
  /\ validate_data Json.loads Sample.repr Sample.str_to_float Sample.isin
       amounts array_text = Raise AttributeError.
Proof.
  split; [reflexivity|]. split.
  - apply (validate_data_non_object_rules Json.loads Sample.repr
             Sample.str_to_float Sample.isin amounts object_text
             (PDict [("a", PInt 1)])); [reflexivity | now left].
  - split; [reflexivity|].
    apply (validate_data_non_object_rules Json.loads Sample.repr
             Sample.str_to_float Sample.isin amounts array_text
             (PList [PInt 1])); [reflexivity | now right].
Defined.

(** C8 fails as stated in its last part: the empty object is valid JSON
    and no array of objects, and [validate_data] runs through on it. *)
Lemma validate_data_completes_on_empty_object :
  Json.loads "{}" = Some (PDict [])
  /\ validate_data Json.loads Sample.repr Sample.str_to_float Sample.isin
       amounts "{}"
     = Ok (Some (workbook (with_diag amounts [""; ""])))
  /\ ~ (exists e,
          validate_data Json.loads Sample.repr Sample.str_to_float Sample.isin
            amounts "{}" = Raise e).
Proof.
  split; [reflexivity|]. split; [reflexivity|].
  intros [e H]. vm_compute in H. discriminate.
Qed.

(** An integer too large for a binary64 has no float. *)
Lemma float_of_huge_integer_overflows :
  py_float Sample.str_to_float (PInt (10 ^ 400)) = Raise OverflowError
  /\ py_float Sample.str_to_float (PInt (2 ^ 1024 - 2 ^ 970)) = Raise OverflowError
  /\ py_float Sample.str_to_float (PInt (2 ^ 1024 - 2 ^ 970 - 1))
     = Ok (FNum (inject_Z (2 ^ 1024 - 2 ^ 971))).
Proof.
  repeat split; vm_compute; reflexivity.
Qed.

(** C3, where the code departs from it: a greater-than rule on the
    numeric column Amount whose value is the string "abc", or null, is
    not skipped; [float] raises ValueError, or TypeError, nothing
    catches it, and the run ends without a workbook.  A non-list value
    of an allowed-values rule is skipped, as the claim says. *)
Theorem malformed_greater_than_value_aborts :
  validate_data Json.loads Sample.repr Sample.str_to_float Sample.isin
    amounts (rule_text "Amount" "greater than" (dq ++ "abc" ++ dq))
  = Raise ValueError
  /\ validate_data Json.loads Sample.repr Sample.str_to_float Sample.isin
       amounts (rule_text "Amount" "greater than" "null")
     = Raise TypeError
  /\ validate_data Json.loads Sample.repr Sample.str_to_float Sample.isin
       amounts (rule_text "Amount" "allowed values" "3")
     = Ok (Some (workbook (with_diag amounts [""; ""]))).
Proof.
  repeat split; reflexivity.
Qed.

(** C4, where the code departs from it: a response with status 200
    whose body is the JSON array [] makes [extract_profile_rules] raise
    AttributeError, and one whose message content is null makes it raise
    TypeError; with a status other than 200 the result is "[]". *)
Theorem extract_profile_rules_raises_on_non_object_body :
  extract_profile_rules Json.loads
    (Sample.post {| resp_status_code := 200; resp_text := "[]" |})
    Sample.getenv "instructions" default_model None default_url
  = Raise AttributeError
  /\ extract_profile_rules Json.loads
       (Sample.post {| resp_status_code := 200;
                       resp_text := completion_text "null" |})
       Sample.getenv "instructions" default_model None default_url
     = Raise TypeError
  /\ extract_profile_rules Json.loads
       (Sample.post {| resp_status_code := 500; resp_text := "[]" |})
       Sample.getenv "instructions" default_model None default_url
     = Ok "[]".
Proof.
  repeat split; reflexivity.
Qed.

(* ================================================================== *)
(** * The request of [extract_profile_rules] *)
(* ================================================================== *)

(** X23: the result depends on the server only through its answer to
    one request: the one sent to the given URL, with the JSON content
    type and the header Authorization "Bearer <key>", the key being the
    one given, else the variable DEEPSEEK_API_KEY of the environment,
    else the word None, and whose body names the given model, the prompt
    as system message, the text as user message, the temperature 0.2 and
    no streaming. *)
Theorem extract_profile_rules_single_request
        (json_loads : string -> option pyval)
        (post1 post2 : request -> response)
        (getenv : string -> option string)
        (text model : string) (api_key : option string) (url : string) :
  (forall req,
      req_url req = url ->
      header "Authorization" (req_headers req)
      = Some ("Bearer "
              ++ format_opt match api_key with
                            | Some k => Some k
                            | None => getenv "DEEPSEEK_API_KEY"
                            end) ->
      header "Content-Type" (req_headers req) = Some "application/json" ->
      py_get (req_json req) "model" PNone = Ok (PStr model) ->
      py_get (req_json req) "messages" PNone
      = Ok (PList [PDict [("role", PStr "system"); ("content", PStr prompt)];
                   PDict [("role", PStr "user"); ("content", PStr text)]]) ->
      py_get (req_json req) "temperature" PNone = Ok (PFloat (FNum (2 # 10))) ->
      py_get (req_json req) "stream" PNone = Ok (PBool false) ->
      post1 req = post2 req) ->
  extract_profile_rules json_loads post1 getenv text model api_key url
  = extract_profile_rules json_loads post2 getenv text model api_key url.
Proof.
  intros H. unfold extract_profile_rules. cbv zeta.
  match goal with
  | |- context [post1 ?r] =>
      rewrite (H r eq_refl eq_refl eq_refl eq_refl eq_refl eq_refl eq_refl)
  end.
  reflexivity.
Qed.

(* ================================================================== *)
(** * The further properties on concrete runs *)
(* ================================================================== *)

Lemma clean_json_response_boxed_content_witness :
  clean_json_response "\boxed{[1, 2]}" = "[1, 2]".
Proof.
  apply (clean_json_response_boxed_content "\boxed{[1, 2]}" "" "[1, 2]" "").
  - reflexivity.
  - apply no_match_by_search. reflexivity.
  - apply (first_at_start boxed_open).
  - apply no_occurrence_by_search. reflexivity.
Defined.

Lemma extract_text_from_pdf_pages_witness :
  extract_text_from_pdf (map Some ["a"; "b"]) = Ok ("a" ++ LF ++ "b" ++ LF)
  /\ extract_text_from_pdf [Some "a"; None] = Raise TypeError.
Proof.
  split.
  - apply (proj1 extract_text_from_pdf_pages ["a"; "b"]).
  - apply (proj1 (proj2 extract_text_from_pdf_pages [Some "a"; None])).
    simpl. right. left. reflexivity.
Defined.

Lemma extract_profile_rules_array_shaped_witness :
  extract_profile_rules Json.loads
    (Sample.post {| resp_status_code := 200;
                    resp_text := completion_text fenced_content |})
    Sample.getenv "instructions" default_model None default_url
  = Ok "[1]"
  /\ Str.startswith "[" (strip "[1]") = true.
Proof.
  split; [reflexivity|].
  apply (extract_profile_rules_array_shaped Json.loads
           (Sample.post {| resp_status_code := 200;
                           resp_text := completion_text fenced_content |})
           Sample.getenv "instructions" default_model None default_url).
  reflexivity.
Defined.

Lemma extract_profile_rules_content_witness :
  extract_profile_rules Json.loads
    (Sample.post {| resp_status_code := 200;
                    resp_text := completion_text fenced_content |})
    Sample.getenv "instructions" default_model None default_url
  = Ok (if Str.startswith "["
             (strip (clean_json_response (fence_open ++ "[1]" ++ fence_close)))
        then clean_json_response (fence_open ++ "[1]" ++ fence_close)
        else "[]")
  /\ clean_json_response (fence_open ++ "[1]" ++ fence_close) = "[1]"
  /\ extract_profile_rules Json.loads
       (Sample.post
          {| resp_status_code := 200;
             resp_text :=
               completion_text
                 (dq ++ String "194" (String "160" "[1]") ++ dq) |})
       Sample.getenv "instructions" default_model None default_url
     = Ok (String "194" (String "160" "[1]")).
Proof.
  split; [|split; [reflexivity|]].
  - apply (extract_profile_rules_content Json.loads
             (Sample.post {| resp_status_code := 200;
                             resp_text := completion_text fenced_content |})
             Sample.getenv "instructions" default_model None default_url
             [("choices",
               PList [PDict [("message",
                              PDict [("content",
                                      PStr (fence_open ++ "[1]" ++ fence_close))])]])]
             [("message",
               PDict [("content", PStr (fence_open ++ "[1]" ++ fence_close))])]
             [("content", PStr (fence_open ++ "[1]" ++ fence_close))] []
             (fence_open ++ "[1]" ++ fence_close));
      try reflexivity; intros; reflexivity.
  - apply (extract_profile_rules_content Json.loads
             (Sample.post
                {| resp_status_code := 200;
                   resp_text :=
                     completion_text
                       (dq ++ String "194" (String "160" "[1]") ++ dq) |})
             Sample.getenv "instructions" default_model None default_url
             [("choices",
               PList [PDict [("message",
                              PDict [("content",
                                      PStr (String "194" (String "160" "[1]")))])]])]
             [("message",
               PDict [("content", PStr (String "194" (String "160" "[1]")))])]
             [("content", PStr (String "194" (String "160" "[1]")))] []
             (String "194" (String "160" "[1]")));
      try reflexivity; intros; reflexivity.
Defined.

Lemma extract_profile_rules_not_json_witness :
  extract_profile_rules Json.loads
    (Sample.post {| resp_status_code := 200; resp_text := "<html>" |})
    Sample.getenv "instructions" default_model None default_url
  = Ok "[]".
Proof.
  apply (extract_profile_rules_not_json Json.loads
           (Sample.post {| resp_status_code := 200; resp_text := "<html>" |})).
  intros req. reflexivity.
Defined.

Lemma extract_profile_rules_single_request_witness :
  extract_profile_rules Json.loads
    (Sample.post {| resp_status_code := 200;
                    resp_text := completion_text fenced_content |})
    Sample.getenv "instructions" default_model (Some "key") default_url
  = extract_profile_rules Json.loads
      (server_at default_url
         {| resp_status_code := 200;
            resp_text := completion_text fenced_content |}
         {| resp_status_code := 404; resp_text := "" |})
      Sample.getenv "instructions" default_model (Some "key") default_url.
Proof.
  apply extract_profile_rules_single_request.
  intros req U _ _ _ _ _ _. unfold server_at, Sample.post.
  rewrite U. reflexivity.
Defined.

Lemma validate_data_skips_incomplete_rule_witness :
  validate_data Json.loads Sample.repr Sample.str_to_float Sample.isin
    amounts columnless_text
  = validate_data Json.loads Sample.repr Sample.str_to_float Sample.isin
      amounts "[]".
Proof.
  apply (validate_data_skips_incomplete_rule Json.loads Sample.repr
           Sample.str_to_float Sample.isin amounts columnless_text "[]"
           [] [] [("constraint", PStr "non-null")]).
  - reflexivity.
  - reflexivity.
  - left. reflexivity.
Defined.

Lemma validate_data_skips_inapplicable_rule_witness :
  validate_data Json.loads Sample.repr Sample.str_to_float Sample.isin
    statuses (rule_text "Status" "greater than" "0")
  = validate_data Json.loads Sample.repr Sample.str_to_float Sample.isin
      statuses "[]".
Proof.
  apply (validate_data_skips_inapplicable_rule Json.loads Sample.repr
           Sample.str_to_float Sample.isin statuses
           (rule_text "Status" "greater than" "0") "[]" [] []
           (rule_entries "Status" "greater than" (PInt 0))
           "Status" (ObjCol [Some "A"; Some "C"; None]));
    try reflexivity; try discriminate.
  right. left. split; reflexivity.
Defined.

Lemma validate_data_non_null_witness :
  validate_data Json.loads Sample.repr Sample.str_to_float Sample.isin
    statuses (rule_text "Status" "non-null" "0")
  = Ok (Some (workbook
                (with_diag statuses
                   (map (fun null : bool =>
                           if null
                           then "Status" ++ " is missing. Provide a valid value. "
                           else "")
                        [false; false; true])))).
Proof.
  apply (validate_data_non_null Json.loads Sample.repr Sample.str_to_float
           Sample.isin statuses (rule_text "Status" "non-null" "0")
           (rule_entries "Status" "non-null" (PInt 0))
           "Status" (ObjCol [Some "A"; Some "C"; None]));
    try reflexivity; discriminate.
Defined.

Lemma validate_data_allowed_values_witness :
  validate_data Json.loads Sample.repr Sample.str_to_float Sample.isin
    statuses (rule_text "Status" "allowed values" a_or_b)
  = Ok (Some (workbook
                (with_diag statuses
                   [""; "Status must be one of ['A', 'B']. ";
                    "Status must be one of ['A', 'B']. "]))).
Proof.
  apply (validate_data_allowed_values Json.loads Sample.repr Sample.str_to_float
           Sample.isin statuses (rule_text "Status" "allowed values" a_or_b)
           (rule_entries "Status" "allowed values" (PList [PStr "A"; PStr "B"]))
           "Status" (ObjCol [Some "A"; Some "C"; None]) [PStr "A"; PStr "B"]);
    try reflexivity; discriminate.
Defined.

Lemma validate_data_more_rules_append_witness :
  exists r1,
    validate_data Json.loads Sample.repr Sample.str_to_float Sample.isin
      amounts (rule_text "Amount" "greater than" "0") = Ok (Some r1)
    /\ appended
         (diagnostics (table r1))
         (diagnostics
            (table
               (workbook
                  (with_diag amounts
                     ["Amount must be greater than 0. Amount must be greater than 0. ";
                      ""])))).
Proof.
  apply (validate_data_more_rules_append Json.loads Sample.repr
           Sample.str_to_float Sample.isin amounts
           (rule_text "Amount" "greater than" "0")
           (rule_text_twice "Amount" "greater than" "0")
           [PDict (rule_entries "Amount" "greater than" (PInt 0))]
           [PDict (rule_entries "Amount" "greater than" (PInt 0))]);
    reflexivity.
Defined.

Lemma validate_data_other_columns_witness :
  nrows (table (workbook (with_diag annotated [""]))) = nrows annotated
  /\ (forall name, name <> Error_Details ->
                   getitem (table (workbook (with_diag annotated [""]))) name
                   = getitem annotated name)
  /\ (In Error_Details (names annotated) ->
      names (table (workbook (with_diag annotated [""]))) = names annotated)
  /\ (~ In Error_Details (names annotated) ->
      names (table (workbook (with_diag annotated [""])))
      = (names annotated ++ [Error_Details])%list)
  /\ List.length (diagnostics (table (workbook (with_diag annotated [""]))))
     = nrows annotated.
Proof.
  apply (validate_data_other_columns Json.loads Sample.repr Sample.str_to_float
           Sample.isin annotated "[]").
  reflexivity.
Defined.

Lemma validate_data_red_fill_witness :
  List.length
    (red_fill (workbook (with_diag amounts ["Amount must be greater than 0. "; ""])))
  = nrows amounts
  /\ Forall2 (fun (red : bool) (text : string) => red = true <-> text <> "")
       (red_fill
          (workbook (with_diag amounts ["Amount must be greater than 0. "; ""])))
       (diagnostics
          (table
             (workbook (with_diag amounts ["Amount must be greater than 0. "; ""])))).
Proof.
  apply (validate_data_red_fill Json.loads Sample.repr Sample.str_to_float
           Sample.isin amounts (rule_text "Amount" "greater than" "0")).
  reflexivity.
Defined.

Lemma validate_data_empty_container_witness :
  Json.loads "{}" = Some (PDict [])
  /\ validate_data Json.loads Sample.repr Sample.str_to_float Sample.isin
       annotated "{}"
     = Ok (Some (workbook (with_diag annotated (repeat "" (nrows annotated))))).
Proof.
  split; [reflexivity|].
  apply (validate_data_empty_container Json.loads Sample.repr
           Sample.str_to_float Sample.isin annotated "{}" (PDict []));
    [reflexivity | right; left; reflexivity].
Defined.

Lemma validate_data_not_iterable_witness :
  Json.loads "null" = Some PNone
  /\ validate_data Json.loads Sample.repr Sample.str_to_float Sample.isin
       amounts "null" = Raise TypeError.
Proof.
  split; [reflexivity|].
  apply (validate_data_not_iterable Json.loads Sample.repr
           Sample.str_to_float Sample.isin amounts "null" PNone);
    [reflexivity | exact I].
Defined.

Lemma validate_data_unhashable_column_witness :
  Json.loads (odd_column_text "[1]")
  = Some (PList [PDict [("column", PList [PInt 1]);
                        ("constraint", PStr "non-null")]])
  /\ validate_data Json.loads Sample.repr Sample.str_to_float Sample.isin
       amounts (odd_column_text "[1]") = Raise TypeError.
Proof.
  split; [reflexivity|].
  apply (validate_data_unhashable_column Json.loads Sample.repr
           Sample.str_to_float Sample.isin amounts (odd_column_text "[1]")
           [("column", PList [PInt 1]); ("constraint", PStr "non-null")] []);
    try reflexivity; try exact I.
Defined.

Lemma validate_data_number_as_column_witness :
  validate_data Json.loads Sample.repr Sample.str_to_float Sample.isin
    amounts (odd_column_text "5")
  = Ok (Some (workbook
                (with_diag amounts
                   (repeat ("5" ++ " is missing in the dataset. ") 2)))).
Proof.
  apply (validate_data_number_as_column Json.loads Sample.repr
           Sample.str_to_float Sample.isin amounts (odd_column_text "5")
           [("column", PInt 5); ("constraint", PStr "non-null")]);
    try reflexivity; try exact I.
Defined.

Lemma validate_data_rule_twice_witness :
  validate_data Json.loads Sample.repr Sample.str_to_float Sample.isin
    amounts (rule_text_twice "Amount" "greater than" "0")
  = Ok (Some (workbook
                (with_diag amounts
                   ["Amount must be greater than 0. Amount must be greater than 0. ";
                    ""])))
  /\ validate_data Json.loads Sample.repr Sample.str_to_float Sample.isin
       {| nrows := 2;
          columns := [("Amount", NumCol [FNum 9007199254740993;
                                         FNum 9007199254740995])] |}
       (rule_text_twice "Amount" "greater than" "9007199254740992")
     = Ok (Some (workbook
                   (with_diag
                      {| nrows := 2;
                         columns :=
                           [("Amount", NumCol [FNum 9007199254740993;
                                               FNum 9007199254740995])] |}
                      ["Amount must be greater than 9007199254740992. Amount must be greater than 9007199254740992. ";
                       ""])))
  /\ workbook
    (with_diag amounts
       ["Amount must be greater than 0. Amount must be greater than 0. "; ""])
  = workbook
      (with_diag amounts
         (map (fun x =>
                 if fle x (FNum 0)
                 then ("Amount" ++ " must be greater than " ++ "0" ++ ". ")
                      ++ ("Amount" ++ " must be greater than " ++ "0" ++ ". ")
                 else "")
              [FNum (-5); FNum 10]))
  /\ workbook
       (with_diag
          {| nrows := 2;
             columns := [("Amount", NumCol [FNum 9007199254740993;
                                            FNum 9007199254740995])] |}
          ["Amount must be greater than 9007199254740992. Amount must be greater than 9007199254740992. ";
           ""])
     = workbook
         (with_diag
            {| nrows := 2;
               columns := [("Amount", NumCol [FNum 9007199254740993;
                                              FNum 9007199254740995])] |}
            (map (fun x =>
                    if fle x (FNum 9007199254740992)
                    then ("Amount" ++ " must be greater than "
                          ++ "9007199254740992" ++ ". ")
                         ++ ("Amount" ++ " must be greater than "
                             ++ "9007199254740992" ++ ". ")
                    else "")
                 [FNum 9007199254740993; FNum 9007199254740995])).
Proof.
  split; [reflexivity|]. split; [reflexivity|]. split.
  - apply (validate_data_rule_twice Json.loads Sample.repr Sample.str_to_float
             Sample.isin amounts (rule_text_twice "Amount" "greater than" "0")
             (rule_entries "Amount" "greater than" (PInt 0))
             "Amount" (NumCol [FNum (-5); FNum 10]) (FNum 0));
      try reflexivity; discriminate.
  - apply (validate_data_rule_twice Json.loads Sample.repr Sample.str_to_float
             Sample.isin
             {| nrows := 2;
                columns := [("Amount", NumCol [FNum 9007199254740993;
                                               FNum 9007199254740995])] |}
             (rule_text_twice "Amount" "greater than" "9007199254740992")
             (rule_entries "Amount" "greater than" (PInt 9007199254740992))
             "Amount"
             (NumCol [FNum 9007199254740993; FNum 9007199254740995])
             (FNum 9007199254740992));
      try reflexivity; discriminate.
Defined.

Lemma main_fails_open_witness :
  main Json.loads Sample.repr Sample.str_to_float Sample.isin
    (Sample.post {| resp_status_code := 503; resp_text := "" |})
    Sample.getenv [Some "page one"; Some "page two"] "key" amounts
  = Ok (Some (workbook (with_diag amounts (repeat "" (nrows amounts))))).
Proof.
  apply (main_fails_open Json.loads Sample.repr Sample.str_to_float Sample.isin
           (Sample.post {| resp_status_code := 503; resp_text := "" |})
           Sample.getenv [Some "page one"; Some "page two"] "key" amounts).
  - simpl. intros [H|[H|[]]]; discriminate.
  - intros req. discriminate.
  - reflexivity.
Defined.

Lemma main_silent_on_undecodable_rules_witness :
  main Json.loads Sample.repr Sample.str_to_float Sample.isin
    (Sample.post {| resp_status_code := 200;
                    resp_text := completion_text (dq ++ "[oops" ++ dq) |})
    Sample.getenv [Some "page one"] "key" amounts
  = Ok None.
Proof.
  apply (main_silent_on_undecodable_rules Json.loads Sample.repr
           Sample.str_to_float Sample.isin
           (Sample.post {| resp_status_code := 200;
                           resp_text := completion_text (dq ++ "[oops" ++ dq) |})
           Sample.getenv [Some "page one"] "key" amounts
           [("choices",
             PList [PDict [("message", PDict [("content", PStr "[oops")])]])]
           [("message", PDict [("content", PStr "[oops")])]
           [("content", PStr "[oops")] [] "[oops");
    try reflexivity; try (intros req; reflexivity).
  simpl. intros [H|[]]. discriminate.
Defined.
